(** * downloader/views.py: a shallow embedding and its verified properties

    The module [downloader.views] is a pair of Django request handlers
    ([home], [download_video]) over three helpers ([sanitize_youtube_url],
    [format_duration], [get_yt_object]).  Python text is modelled as a list
    of Unicode code points, exceptions as values of a sum type, and every
    interaction with the outside world (the pytube handle, the clock, the
    logger, the file system) as an event appended to a trace, the answer
    being supplied by an oracle record. *)

From Stdlib Require Import List String Ascii ZArith NArith Lia Bool Arith Sorted.
Import ListNotations.

Set Implicit Arguments.
Unset Strict Implicit.

(* ================================================================== *)
(** ** Python text *)

Module PyStr.

(** A Python [str] is a sequence of code points. *)
Definition char := N.
Definition str := list char.

(** A literal of the source, as code points. *)
Definition py (s : string) : str := List.map N_of_ascii (list_ascii_of_string s).

Definition char_eqb (a b : char) : bool := N.eqb a b.
Arguments char_eqb (a b)%_N.

Fixpoint str_eqb (a b : str) : bool :=
  match a, b with
  | [], [] => true
  | x :: a', y :: b' => char_eqb x y && str_eqb a' b'
  | _, _ => false
  end.

Definition in_range (lo hi c : char) : bool := (N.leb lo c) && (N.leb c hi).
Arguments in_range (lo hi c)%_N.

(** [str.isspace] on one code point: the ASCII table of CPython
    (TAB..CR, FS..US, SPACE) and the Unicode white-space code points. *)
Definition isspace (c : char) : bool :=
  in_range 9 13 c || in_range 28 32 c || char_eqb c 133 || char_eqb c 160
  || char_eqb c 5760 || in_range 8192 8202 c || char_eqb c 8232
  || char_eqb c 8233 || char_eqb c 8239 || char_eqb c 8287 || char_eqb c 12288.

Fixpoint dropwhile (f : char -> bool) (s : str) : str :=
  match s with
  | [] => []
  | c :: t => if f c then dropwhile f t else s
  end.

(** [s.lstrip()], [s.rstrip()], [s.strip()] without argument. *)
Definition lstrip (s : str) : str := dropwhile isspace s.
Definition rstrip (s : str) : str := rev (dropwhile isspace (rev s)).
Definition strip (s : str) : str := rstrip (lstrip s).

(** ASCII part of [str.isalnum]. *)
Definition ascii_alnum (c : char) : bool :=
  in_range 48 57 c || in_range 65 90 c || in_range 97 122 c.

(** Decimal digits of a natural number, most significant first. *)
Fixpoint digits_fuel (fuel : nat) (n : N) (acc : str) : str :=
  match fuel with
  | O => acc
  | S f =>
      let acc' := (48 + N.modulo n 10)%N :: acc in
      if N.ltb n 10 then acc' else digits_fuel f (N.div n 10) acc'
  end.

Definition digits (n : N) : str := digits_fuel (S (N.to_nat (N.log2 n))) n [].

(** ["%d" % z] and [str(z)] for an int. *)
Definition str_of_int (z : Z) : str :=
  if Z.ltb z 0 then py "-" ++ digits (Z.abs_N z) else digits (Z.abs_N z).

(** ["%02d" % z]: the decimal form, padded on the left with zeros to
    width [w] (the sign, when there is one, stays in front). *)
Definition zero_pad (w : nat) (z : Z) : str :=
  let d := digits (Z.abs_N z) in
  if Z.ltb z 0
  then py "-" ++ repeat 48%N (w - 1 - List.length d) ++ d
  else repeat 48%N (w - List.length d) ++ d.

End PyStr.
Import PyStr.
Arguments char_eqb (a b)%_N.
Arguments in_range (lo hi c)%_N.

(* ================================================================== *)
(** ** Exceptions *)

(** An exception value: its class (by name) and [str(e)]. *)
Record exn := Exn { exn_class : string; exn_msg : str }.

Definition result (A : Type) : Type := (exn + A)%type.

Definition PytubeError : string := "PytubeError".
Definition RegexMatchError : string := "RegexMatchError".
Definition AgeRestrictedError : string := "AgeRestrictedError".
Definition VideoUnavailable : string := "VideoUnavailable".
Definition FileNotFoundError : string := "FileNotFoundError".
Definition TypeError : string := "TypeError".
Definition OverflowError : string := "OverflowError".

(* ================================================================== *)
(** ** The fragment of [re] used by the patterns *)

Module Re.

Inductive regex : Type :=
| Lit (c : char)                 (* one literal character, escaped or not *)
| Class (f : char -> bool)       (* [...] *)
| Cat (r1 r2 : regex)            (* r1 r2 *)
| Or (r1 r2 : regex)             (* r1|r2 *)
| Maybe (r : regex)              (* (?:r)?  greedy *)
| Times (n : nat) (r : regex)    (* r{n} *)
| Group (r : regex).             (* (r), capturing group 1 *)

(** The literal string [s] as a pattern; [s] is not empty in any use. *)
Fixpoint lit_from (c : char) (s : str) : regex :=
  match s with
  | [] => Lit c
  | d :: t => Cat (Lit c) (lit_from d t)
  end.

Definition lit (s : string) : regex :=
  match py s with
  | [] => Times 0 (Lit 0%N)
  | c :: t => lit_from c t
  end.

(** A match object, reduced to what the source reads: [group(1)]. *)
Record Match := MkMatch { group1 : option str }.

Section Backtrack.
Variable A : Type.

(** The backtracking matcher of [re], in continuation passing style:
    [bt r s g k] matches [r] at the head of [s] with group 1 currently
    [g], and calls [k] on the rest of the input; alternatives are tried
    in the priority order of [re] (left branch first, a greedy [?]
    first with its body, then without). *)
Fixpoint bt (r : regex) (s : str) (g : option str)
         (k : str -> option str -> option A) {struct r} : option A :=
  match r with
  | Lit c =>
      match s with
      | x :: t => if char_eqb x c then k t g else None
      | [] => None
      end
  | Class f =>
      match s with
      | x :: t => if f x then k t g else None
      | [] => None
      end
  | Cat r1 r2 => bt r1 s g (fun s' g' => bt r2 s' g' k)
  | Or r1 r2 =>
      match bt r1 s g k with
      | Some a => Some a
      | None => bt r2 s g k
      end
  | Maybe r1 =>
      match bt r1 s g k with
      | Some a => Some a
      | None => k s g
      end
  | Times n r1 =>
      (fix rep (n : nat) (s : str) (g : option str) {struct n} : option A :=
         match n with
         | O => k s g
         | S n' => bt r1 s g (fun s' g' => rep n' s' g')
         end) n s g
  | Group r1 =>
      bt r1 s g
         (fun s' _ => k s' (Some (firstn (List.length s - List.length s') s)))
  end.
End Backtrack.

(** [pattern.match] anchored at the head of [s]. *)
Definition match_here (r : regex) (s : str) : option Match :=
  bt r s None (fun _ g => Some (MkMatch g)).

(** [re.search(pattern, s)]: the match at the leftmost position that has
    one. *)
Fixpoint search (r : regex) (s : str) : option Match :=
  match match_here r s with
  | Some m => Some m
  | None =>
      match s with
      | [] => None
      | _ :: t => search r t
      end
  end.

(** The words of a pattern (captures forgotten). *)
Inductive words : regex -> str -> Prop :=
| w_lit c : words (Lit c) [c]
| w_class (f : char -> bool) c : f c = true -> words (Class f) [c]
| w_cat r1 r2 u v : words r1 u -> words r2 v -> words (Cat r1 r2) (u ++ v)
| w_or_l r1 r2 u : words r1 u -> words (Or r1 r2) u
| w_or_r r1 r2 u : words r2 u -> words (Or r1 r2) u
| w_maybe_none r : words (Maybe r) []
| w_maybe_some r u : words r u -> words (Maybe r) u
| w_times_0 r : words (Times 0 r) []
| w_times_S n r u v : words r u -> words (Times n r) v -> words (Times (S n) r) (u ++ v)
| w_group r u : words r u -> words (Group r) u.

End Re.
Import Re.

(* ================================================================== *)
(** ** sanitize_youtube_url *)

(** [[a-zA-Z0-9_-]] *)
Definition idchar (c : char) : bool :=
  in_range 97 122 c || in_range 65 90 c || in_range 48 57 c
  || char_eqb c 95 || char_eqb c 45.

(** [(?:https?:\/\/)?(?:www\.|m\.)?] *)
Definition url_head : regex :=
  Cat (Maybe (Cat (lit "http") (Cat (Maybe (Lit 115%N)) (lit "://"))))
      (Maybe (Or (lit "www.") (lit "m."))).

(** [([a-zA-Z0-9_-]{11})] *)
Definition id_group : regex := Group (Times 11 (Class idchar)).

Definition shape (host_path : string) : regex :=
  Cat url_head (Cat (lit host_path) id_group).

Definition patterns : list regex :=
  [ shape "youtu.be/";
    shape "youtube.com/watch?v=";
    shape "youtube.com/embed/";
    shape "youtube.com/v/" ].

Definition canonical (id : str) : str := py "https://www.youtube.com/watch?v=" ++ id.

(** [RegexMatchError("Invalid YouTube URL format")].  The class is the one of
    [pytube.exceptions], whose constructor takes two arguments, [caller] and
    [pattern]: the call with one argument builds no exception, it raises
    [TypeError] (in the words of CPython 3.10 and later). *)
Definition RegexMatchError_call : exn :=
  Exn TypeError
      (py "RegexMatchError.__init__() missing 1 required positional argument: 'pattern'").

(** The [for pattern in patterns] loop and the [raise] after it; [len(None)]
    is a [TypeError]. *)
Fixpoint sanitize_loop (ps : list regex) (url : str) : result str :=
  match ps with
  | [] => inl RegexMatchError_call
  | pattern :: rest =>
      match search pattern url with
      | Some m =>
          match group1 m with
          | Some g =>
              if Nat.eqb (List.length g) 11
              then inr (canonical g)
              else sanitize_loop rest url
          | None => inl (Exn TypeError (py "object of type 'NoneType' has no len()"))
          end
      | None => sanitize_loop rest url
      end
  end.

Definition sanitize_youtube_url (url : str) : result str :=
  sanitize_loop patterns url.

(** The optional parts in front of the four shapes. *)
Definition schemes : list string := [""; "http://"; "https://"]%string.
Definition subdomains : list string := [""; "www."; "m."]%string.
Definition shapes : list string :=
  ["youtu.be/"; "youtube.com/watch?v="; "youtube.com/embed/"; "youtube.com/v/"]%string.

Definition valid_id (id : str) : Prop :=
  List.length id = 11 /\ forallb idchar id = true.


(* ================================================================== *)
(** ** format_duration *)

(** [timedelta(seconds=n)] for an int [n]: the normalised pair
    (days, seconds) with [0 <= seconds < 86400], or [OverflowError]: when
    the day count does not fit a C int, and when it leaves the range of
    [timedelta]. *)
Definition timedelta (seconds : Z) : result (Z * Z) :=
  let days := (seconds / 86400)%Z in
  let secs := (seconds mod 86400)%Z in
  if (days <? -2147483648)%Z || (days >? 2147483647)%Z
  then inl (Exn OverflowError (py "Python int too large to convert to C int"))
  else if (Z.abs days >? 999999999)%Z
  then inl (Exn OverflowError
              (py "days=" ++ str_of_int days ++ py "; must have magnitude <= 999999999"))
  else inr (days, secs).

(** ["%d:%02d:%02d" % (hh, mm, ss)] *)
Definition hms (seconds : Z) : str :=
  let mm := (seconds / 60)%Z in
  let ss := (seconds mod 60)%Z in
  let hh := (mm / 60)%Z in
  let mm := (mm mod 60)%Z in
  str_of_int hh ++ py ":" ++ zero_pad 2 mm ++ py ":" ++ zero_pad 2 ss.

(** ["%d day%s, " % plural(days)] *)
Definition day_prefix (days : Z) : str :=
  str_of_int days ++ py " day"
  ++ (if (Z.abs days =? 1)%Z then [] else py "s") ++ py ", ".

(** [timedelta.__str__] (no microseconds: the argument is an int). *)
Definition timedelta_str (td : Z * Z) : str :=
  let (days, secs) := td in
  if (days =? 0)%Z then hms secs else day_prefix days ++ hms secs.

Definition format_duration (seconds : Z) : result str :=
  match timedelta seconds with
  | inl e => inl e
  | inr td => inr (timedelta_str td)
  end.

(** Reading back a string of the exact form [H:MM:SS]: the hours in one
    or more digits without a leading zero (a lone [0] apart), a colon, the
    minutes in two digits and below 60, a colon, the seconds in two digits and
    below 60.  The seconds it denotes, or [None] for any other string. *)
Definition is_digit (c : char) : bool := in_range 48 57 c.

Definition digit_val (c : char) : Z := (Z.of_N c - 48)%Z.

Fixpoint read_hours (s : str) (acc : Z) (seen : bool) : option (Z * str) :=
  match s with
  | [] => None
  | c :: t =>
      if is_digit c then read_hours t (10 * acc + digit_val c)%Z true
      else if char_eqb c 58 && seen then Some (acc, t) else None
  end.

Definition leading_zero (s : str) : bool :=
  match s with
  | c :: d :: _ => char_eqb c 48 && is_digit d
  | _ => false
  end.

Definition parse_hms (s : str) : option Z :=
  match read_hours s 0%Z false with
  | Some (h, [m1; m2; c; s1; s2]) =>
      let mm := (10 * digit_val m1 + digit_val m2)%Z in
      let ss := (10 * digit_val s1 + digit_val s2)%Z in
      if negb (leading_zero s)
         && is_digit m1 && is_digit m2 && char_eqb c 58 && is_digit s1 && is_digit s2
         && (mm <? 60)%Z && (ss <? 60)%Z
      then Some (h * 3600 + mm * 60 + ss)%Z
      else None
  | _ => None
  end.

(* ================================================================== *)
(** ** The outside world *)

(** A stream descriptor of the extraction library. *)
Record Stream := MkStream {
  itag : Z;
  resolution : option str;
  is_progressive : bool;
  subtype : str
}.

(** [yt.streams]: a query over the stream list. *)
Definition StreamQuery := list Stream.

(** The handle [yt].  Every attribute is a property of the library and may
    raise when read. *)
Module YouTube.
Record t := Make {
  title : result str;
  length : result Z;
  views : result Z;
  author : result str;
  thumbnail_url : result str;
  video_id : result str;
  streams : result StreamQuery
}.
End YouTube.

(** Calls that leave the process, in the order they happen. *)
Inductive event : Type :=
| YouTube_init (url : str)                 (* YouTube(url, headers=..., ...) *)
| bypass_age_gate                          (* yt.bypass_age_gate() *)
| vid_info                                 (* yt.vid_info *)
| time_sleep (secs : Z)                    (* time.sleep(secs) *)
| logger_warning (msg : str)
| logger_error (msg : str)                 (* with exc_info=True *)
| os_makedirs (path : str)                 (* exist_ok=True *)
| stream_download (s : Stream) (output_path filename : str) (timeout : Z)
| os_path_exists (path : str)
| read_file (path : str).                  (* open(path, 'rb') ... f.read() *)

Definition trace := list event.

(** The tables of the interpreter that the sort key of pytube reads. *)
Record Digits := MkDigits {
  isdigit_above : char -> bool;            (* [str.isdigit] above U+007F *)
  int_else : str -> option Z               (* [int(s)] where the model does not
                                              compute it; [None] is [ValueError] *)
}.

(** What the code does not define itself: settings, the Unicode tables
    and text conversions of the interpreter, the class hierarchy of the
    library's exceptions, the answers of the library and of the operating
    system.  An answer may depend on everything that happened before the
    call. *)
Record World := MkWorld {
  MEDIA_ROOT : str;
  unicode_alnum : char -> bool;            (* [str.isalnum] above U+007F *)
  digits_of_interpreter : Digits;
  repr : str -> str;                       (* [repr(s)] of a string *)
  mime_encode : str -> result str;         (* [Header(s, 'utf-8', maxlinelen=
                                              sys.maxsize).encode()] of [email] *)
  derives : string -> string -> bool;      (* proper subclass, by class name *)
  new_YouTube : trace -> str -> result YouTube.t;
  do_bypass_age_gate : trace -> YouTube.t -> result unit;
  get_vid_info : trace -> YouTube.t -> result unit;
  makedirs : trace -> str -> result unit;
  download : trace -> Stream -> str -> str -> Z -> result unit;
  path_exists : trace -> str -> bool;
  file_contents : trace -> str -> result (list N);
  (* streams.filter(progressive=True, file_extension='mp4')
            .order_by('resolution').desc() *)
  progressive_mp4_desc : StreamQuery -> result StreamQuery;
  get_highest_resolution : StreamQuery -> result (option Stream);
  get_lowest_resolution : StreamQuery -> result (option Stream);
  get_by_resolution : StreamQuery -> str -> result (option Stream)
}.

(** [isinstance(e, C)] *)
Definition isinstance (w : World) (e : exn) (C : string) : bool :=
  String.eqb (exn_class e) C || derives w (exn_class e) C.

(* ================================================================== *)
(** ** The stream lookups of pytube *)

(** [pytube.query.StreamQuery], as far as [get_highest_resolution],
    [get_lowest_resolution] and [get_by_resolution] use it: [filter],
    [order_by], [first] and [last] over the list of streams. *)
Module Pytube.

(** [str.isdigit] on one code point. *)
Definition isdigit (d : Digits) (c : char) : bool :=
  if N.ltb c 128 then in_range 48 57 c else isdigit_above d c.

Definition decimal (s : str) : Z :=
  fold_left (fun acc c => (10 * acc + (Z.of_N c - 48))%Z) s 0%Z.

(** [int(s)] for a string of [isdigit] characters.  The empty string is a
    [ValueError]; ASCII digits within the default limit of 4300 digits are
    read in base ten; the rest is the interpreter's business. *)
Definition int_of (d : Digits) (s : str) : option Z :=
  match s with
  | [] => None
  | _ :: _ =>
      if forallb (in_range 48 57) s && N.leb (N.of_nat (List.length s)) 4300
      then Some (decimal s)
      else int_else d s
  end.

(** The key of [order_by("resolution")]:
    [int("".join(filter(str.isdigit, s.resolution)))]. *)
Definition resolution_key (d : Digits) (s : Stream) : option Z :=
  match resolution s with
  | Some label => int_of d (List.filter (isdigit d) label)
  | None => None
  end.

Definition resolution_value (d : Digits) (s : Stream) : Z :=
  match resolution_key d s with
  | Some v => v
  | None => 0%Z
  end.

Definition label_of (s : Stream) : str :=
  match resolution s with
  | Some label => label
  | None => []
  end.

(** The order of two strings: by code point, a proper prefix first. *)
Fixpoint str_leb (a b : str) : bool :=
  match a, b with
  | [], _ => true
  | _ :: _, [] => false
  | x :: a', y :: b' =>
      if N.ltb x y then true else if N.ltb y x then false else str_leb a' b'
  end.

Section Sorted.
Variable A : Type.
Variable leb : A -> A -> bool.

Fixpoint insert (x : A) (l : list A) : list A :=
  match l with
  | [] => [x]
  | y :: t => if leb x y then x :: l else y :: insert x t
  end.

(** [sorted(l, key=...)]: a stable sort, elements with equal keys keep
    their order. *)
Definition sorted (l : list A) : list A := fold_right insert [] l.
End Sorted.

Definition has_resolution (s : Stream) : bool :=
  match resolution s with
  | Some _ => true
  | None => false
  end.

Definition has_key (d : Digits) (s : Stream) : bool :=
  match resolution_key d s with
  | Some _ => true
  | None => false
  end.

(** [order_by("resolution")]: the streams without a resolution are left
    out; the rest is sorted by the number in the label, or, when the label
    of one of them gives no number, by the label itself. *)
Definition order_by_resolution (d : Digits) (q : StreamQuery) : StreamQuery :=
  let has_attribute := List.filter has_resolution q in
  if forallb (has_key d) has_attribute
  then sorted (fun a b => (resolution_value d a <=? resolution_value d b)%Z)
              has_attribute
  else sorted (fun a b => str_leb (label_of a) (label_of b)) has_attribute.

Definition first (q : StreamQuery) : option Stream :=
  match q with
  | [] => None
  | s :: _ => Some s
  end.

Definition last (q : StreamQuery) : option Stream :=
  List.last (List.map Some q) None.

(** [subtype="mp4"] *)
Definition is_mp4 (s : Stream) : bool := str_eqb (subtype s) (py "mp4").

(** [resolution=res]: no filter at all when [res] is the empty string. *)
Definition has_label (res : str) (s : Stream) : bool :=
  match res with
  | [] => true
  | _ :: _ =>
      match resolution s with
      | Some label => str_eqb label res
      | None => false
      end
  end.

(** [self.filter(progressive=True).order_by("resolution").last()] *)
Definition get_highest_resolution (d : Digits) (q : StreamQuery) : option Stream :=
  last (order_by_resolution d (List.filter is_progressive q)).

(** [self.filter(progressive=True, subtype="mp4").order_by("resolution").first()] *)
Definition get_lowest_resolution (d : Digits) (q : StreamQuery) : option Stream :=
  first (order_by_resolution d (List.filter is_progressive (List.filter is_mp4 q))).

(** [self.filter(progressive=True, subtype="mp4", resolution=res).first()] *)
Definition get_by_resolution (q : StreamQuery) (res : str) : option Stream :=
  first (List.filter is_progressive (List.filter is_mp4 (List.filter (has_label res) q))).

(** [streams.filter(progressive=True, file_extension='mp4')
            .order_by('resolution').desc()] *)
Definition progressive_mp4_desc (d : Digits) (q : StreamQuery) : StreamQuery :=
  rev (order_by_resolution d (List.filter is_progressive (List.filter is_mp4 q))).

End Pytube.


(** State and exceptions: a computation reads the trace so far, extends it,
    and returns or raises. *)
Definition M (A : Type) : Type := trace -> result A * trace.

Definition ret {A : Type} (a : A) : M A := fun tr => (inr a, tr).
Definition raise {A : Type} (e : exn) : M A := fun tr => (inl e, tr).

Definition bind {A B : Type} (m : M A) (f : A -> M B) : M B :=
  fun tr =>
    match m tr with
    | (inr a, tr') => f a tr'
    | (inl e, tr') => (inl e, tr')
    end.

(** [try: m  except Exception as e: h e] *)
Definition try_except {A : Type} (m : M A) (h : exn -> M A) : M A :=
  fun tr =>
    match m tr with
    | (inr a, tr') => (inr a, tr')
    | (inl e, tr') => h e tr'
    end.

(** A value computed without leaving the process. *)
Definition lift {A : Type} (r : result A) : M A := fun tr => (r, tr).

(** A call that leaves the process. *)
Definition call {A : Type} (ev : event) (answer : trace -> result A) : M A :=
  fun tr => (answer tr, tr ++ [ev]).

(** A call that cannot raise. *)
Definition emit (ev : event) : M unit := fun tr => (inr tt, tr ++ [ev]).

Declare Scope py_scope.
Delimit Scope py_scope with py.
Notation "x <- m ;; k" := (bind m (fun x => k))
  (at level 100, m at next level, right associativity) : py_scope.
Notation "m ;;; k" := (bind m (fun _ => k))
  (at level 100, right associativity) : py_scope.
Open Scope py_scope.

(* ================================================================== *)
(** ** get_yt_object *)

(** [range(n)] *)
Definition range (n : Z) : list Z := List.map Z.of_nat (seq 0 (Z.to_nat n)).

(** The body of the [try]: construct, bypass the age gate, force the
    metadata request. *)
Definition attempt_once (w : World) (url : str) : M YouTube.t :=
  yt <- call (YouTube_init url) (fun tr => new_YouTube w tr url) ;;
  call bypass_age_gate (fun tr => do_bypass_age_gate w tr yt) ;;;
  call vid_info (fun tr => get_vid_info w tr yt) ;;;
  ret yt.

Definition could_not_initialize : exn :=
  Exn PytubeError
      (py "Could not initialize YouTube object. Check your network or try another video.").

Fixpoint retry_loop (w : World) (url : str) (max_retries : Z) (attempts : list Z)
  : M YouTube.t :=
  match attempts with
  | [] => raise could_not_initialize
  | attempt :: rest =>
      try_except (attempt_once w url)
        (fun e =>
           emit (logger_warning
                   (py "Attempt " ++ str_of_int (attempt + 1) ++ py " failed: "
                       ++ exn_msg e)) ;;;
           (if (attempt <? max_retries - 1)%Z
            then emit (time_sleep (2 ^ attempt))
            else ret tt) ;;;
           retry_loop w url max_retries rest)
  end.

Definition get_yt_object (w : World) (url : str) (max_retries : Z) : M YouTube.t :=
  retry_loop w url max_retries (range max_retries).

(* ================================================================== *)
(** ** Requests and responses *)

(** [request.method] and [request.POST], the form fields in the order they
    were submitted. *)
Record Request := MkRequest {
  method : str;
  POST : list (str * str)
}.

(** [QueryDict.get(key, default)]: the last value submitted for [key]. *)
Fixpoint lookup_last (fields : list (str * str)) (key : str) : option str :=
  match fields with
  | [] => None
  | (k, v) :: rest =>
      match lookup_last rest key with
      | Some v' => Some v'
      | None => if str_eqb k key then Some v else None
      end
  end.

Definition POST_get (request : Request) (key : string) (default : string) : str :=
  match lookup_last (POST request) (py key) with
  | Some v => v
  | None => py default
  end.

(** Values stored in a template context. *)
Inductive value : Type :=
| VStr (s : str)
| VBool (b : bool)
| VStreams (q : StreamQuery).

(** A context: a dict with string keys, in insertion order.  The page that
    [render] produces from a template and a context is the template
    engine's business; a response records the two. *)
Definition dict := list (string * value).

Inductive Response : Type :=
| render (template : string) (context : dict)    (* render(request, template, context) *)
| HttpResponseBadRequest (content : str)
| HttpResponse (content : list N) (content_type : str) (headers : list (string * str))
| redirect (to : string).

Definition status_code (r : Response) : Z :=
  match r with
  | render _ _ => 200
  | HttpResponseBadRequest _ => 400
  | HttpResponse _ _ _ => 200
  | redirect _ => 302
  end.

(** The truth value of a string: [not url] holds of the empty one. *)
Definition falsy (s : str) : bool :=
  match s with
  | [] => true
  | _ => false
  end.

(** ["{:,}".format(n)] *)
Fixpoint commas_rev (ds : str) : str :=
  match ds with
  | a :: b :: c :: ((_ :: _) as rest) => a :: b :: c :: 44%N :: commas_rev rest
  | _ => ds
  end.

Definition thousands (n : Z) : str :=
  (if (n <? 0)%Z then py "-" else []) ++ rev (commas_rev (rev (digits (Z.abs_N n)))).

(** [os.path.join(a, b)] on a POSIX system. *)
Definition path_join (a b : str) : str :=
  match b with
  | 47%N :: _ => b
  | _ =>
      match rev a with
      | [] => b
      | 47%N :: _ => a ++ b
      | _ => a ++ py "/" ++ b
      end
  end.

(* ================================================================== *)
(** ** home *)

Definition home_error (msg : str) : Response :=
  render "home.html" [("error"%string, VStr msg)].

(** The body of the [try] of [home]: the context after [context.update]. *)
Definition home_try (w : World) (url : str) : M dict :=
  clean_url <- lift (sanitize_youtube_url url) ;;
  yt <- get_yt_object w clean_url 3 ;;
  all <- lift (YouTube.streams yt) ;;
  streams <- lift (progressive_mp4_desc w all) ;;
  title <- lift (YouTube.title yt) ;;
  length <- lift (YouTube.length yt) ;;
  duration <- lift (format_duration length) ;;
  views <- lift (YouTube.views yt) ;;
  author <- lift (YouTube.author yt) ;;
  thumbnail <- lift (YouTube.thumbnail_url yt) ;;
  video_id <- lift (YouTube.video_id yt) ;;
  ret [ ("title"%string, VStr title);
        ("duration"%string, VStr duration);
        ("views"%string, VStr (thousands views));
        ("author"%string, VStr author);
        ("thumbnail"%string, VStr thumbnail);
        ("streams"%string, VStreams streams);
        ("video_id"%string, VStr video_id);
        ("clean_url"%string, VStr clean_url);
        ("success"%string, VBool true) ].

(** The [except] clauses of [home], in their order. *)
Definition home_except (w : World) (url : str) (e : exn) : M dict :=
  if isinstance w e PytubeError then
    ret [("error"%string, VStr (exn_msg e))]
  else if isinstance w e AgeRestrictedError then
    ret [("error"%string, VStr (py "Age-restricted video. Please login to YouTube."))]
  else if isinstance w e RegexMatchError then
    ret [("error"%string, VStr (py "Invalid YouTube URL format"))]
  else
    emit (logger_error (py "Error processing URL " ++ url ++ py ": " ++ exn_msg e)) ;;;
    ret [("error"%string, VStr (py "Failed to fetch video information"))].

Definition home (w : World) (request : Request) : M Response :=
  if str_eqb (method request) (py "POST") then
    let url := strip (POST_get request "url" "") in
    if falsy url then
      ret (home_error (py "Please enter a YouTube URL"))
    else
      context <- try_except (home_try w url) (home_except w url) ;;
      ret (render "home.html" context)
  else
    ret (render "home.html" []).

(* ================================================================== *)
(** ** download_video *)

(** The [if quality == 'highest' ... elif ... else] of [download_video]. *)
Definition select_stream (w : World) (quality : str) (all : StreamQuery)
  : result (option Stream) :=
  if str_eqb quality (py "highest") then get_highest_resolution w all
  else if str_eqb quality (py "lowest") then get_lowest_resolution w all
  else get_by_resolution w all quality.

(** [str.isalnum] on one code point. *)
Definition isalnum (w : World) (c : char) : bool :=
  if N.ltb c 128 then ascii_alnum c else unicode_alnum w c.

(** [c.isalnum() or c in (' ', '-', '_')] *)
Definition keep_char (w : World) (c : char) : bool :=
  isalnum w c || (char_eqb c 32 || char_eqb c 45 || char_eqb c 95).

Definition safe_title (w : World) (title : str) : str :=
  rstrip (List.filter (keep_char w) title).

Definition make_filename (w : World) (title video_id : str) : str :=
  safe_title w title ++ py "_" ++ video_id ++ py ".mp4".

Definition no_suitable_stream : exn := Exn PytubeError (py "No suitable stream found").
Definition file_not_found : exn := Exn FileNotFoundError (py "Downloaded file not found").

Definition is_newline (c : char) : bool := char_eqb c 10 || char_eqb c 13.
Definition latin1 (c : char) : bool := N.ltb c 256.

(** [response[header] = value] of Django: the value that is stored.  A
    value with a line feed or a carriage return raises [BadHeaderError]; a
    value of latin-1 characters is stored as it is; any other value is
    stored as a MIME encoded word, when it has one. *)
Definition stored_header (w : World) (value : str) : result str :=
  if existsb is_newline value then
    inl (Exn "BadHeaderError"
             (py "Header values can't contain newlines (got " ++ repr w value ++ py ")"))
  else if forallb latin1 value then inr value
  else mime_encode w value.

(** [f'attachment; filename="{filename}"'] *)
Definition disposition (filename : str) : str :=
  py "attachment; filename=" ++ [34%N] ++ filename ++ [34%N].

(** The second half of the body of the [try] of [download_video], from
    [downloads_dir = ...] to its end, for the stream that was selected. *)
Definition retrieve (w : World) (yt : YouTube.t) (stream : Stream) : M Response :=
  let downloads_dir := path_join (MEDIA_ROOT w) (py "downloads") in
  call (os_makedirs downloads_dir) (fun tr => makedirs w tr downloads_dir) ;;;
  title <- lift (YouTube.title yt) ;;
  video_id <- lift (YouTube.video_id yt) ;;
  let filename := make_filename w title video_id in
  let filepath := path_join downloads_dir filename in
  call (stream_download stream downloads_dir filename 30)
       (fun tr => download w tr stream downloads_dir filename 30%Z) ;;;
  present <- call (os_path_exists filepath)
                  (fun tr => inr (path_exists w tr filepath)) ;;
  if (present : bool) then
    content <- call (read_file filepath) (fun tr => file_contents w tr filepath) ;;
    stored <- lift (stored_header w (disposition filename)) ;;
    ret (HttpResponse content (py "video/mp4")
           [("Content-Disposition"%string, stored)])
  else raise file_not_found.

(** The body of the [try] of [download_video]. *)
Definition download_try (w : World) (url quality : str) : M Response :=
  clean_url <- lift (sanitize_youtube_url url) ;;
  yt <- get_yt_object w clean_url 3 ;;
  all <- lift (YouTube.streams yt) ;;
  found <- lift (select_stream w quality all) ;;
  match found with
  | None => raise no_suitable_stream
  | Some stream => retrieve w yt stream
  end.

(** The [except] clauses of [download_video]. *)
Definition download_except (w : World) (url : str) (e : exn) : M Response :=
  if isinstance w e PytubeError then
    ret (render "home.html"
           [("error"%string, VStr (exn_msg e)); ("url"%string, VStr url)])
  else
    emit (logger_error (py "Download failed for " ++ url ++ py ": " ++ exn_msg e)) ;;;
    ret (render "home.html"
           [("error"%string, VStr (py "Download failed. Please try again later."));
            ("url"%string, VStr url)]).

Definition download_video (w : World) (request : Request) : M Response :=
  if str_eqb (method request) (py "POST") then
    let url := strip (POST_get request "url" "") in
    let quality := POST_get request "quality" "highest" in
    if falsy url then
      ret (HttpResponseBadRequest (py "No URL provided"))
    else
      try_except (download_try w url quality) (download_except w url)
  else
    ret (redirect "home").

(* ================================================================== *)
(** ** Observations on a trace *)

Definition is_init (ev : event) : bool :=
  match ev with
  | YouTube_init _ => true
  | _ => false
  end.

(** How many times the handle was constructed. *)
Definition constructions (tr : trace) : nat := List.length (List.filter is_init tr).

(** The arguments of [time.sleep], in order. *)
Fixpoint waits (tr : trace) : list Z :=
  match tr with
  | [] => []
  | time_sleep n :: t => n :: waits t
  | _ :: t => waits t
  end.

Definition total_wait (tr : trace) : Z := fold_right Z.add 0%Z (waits tr).

(** The streams handed to [stream.download], in order. *)
Fixpoint downloads (tr : trace) : list Stream :=
  match tr with
  | [] => []
  | stream_download s _ _ _ :: t => s :: downloads t
  | _ :: t => downloads t
  end.

(* ================================================================== *)
(** ** The statements of the specification, in its own words *)

(** The file name policy: strip every character that is not alphanumeric,
    space, hyphen or underscore, then trim trailing white space, then add
    the suffix. *)
Definition forbidden (w : World) (c : char) : bool :=
  negb (isalnum w c) && negb (char_eqb c 32) && negb (char_eqb c 45)
  && negb (char_eqb c 95).

Fixpoint strip_forbidden (w : World) (s : str) : str :=
  match s with
  | [] => []
  | c :: t => if forbidden w c then strip_forbidden w t else c :: strip_forbidden w t
  end.

Fixpoint trim_trailing (s : str) : str :=
  match s with
  | [] => []
  | c :: t =>
      match trim_trailing t with
      | [] => if isspace c then [] else [c]
      | t' => c :: t'
      end
  end.

Definition spec_filename (w : World) (title video_id : str) : str :=
  trim_trailing (strip_forbidden w title) ++ py "_" ++ video_id ++ py ".mp4".


(** A submission: a POST whose [url] field, stripped, is [url]. *)
Definition submits (request : Request) (url : str) : Prop :=
  method request = py "POST" /\ strip (POST_get request "url" "") = url.

(** [hms] reads back as its argument on the [fuel] counts from [k] on. *)
Fixpoint hms_reads_back (fuel : nat) (k : Z) : bool :=
  match fuel with
  | O => true
  | S f =>
      match parse_hms (hms k) with
      | Some v => Z.eqb v k
      | None => false
      end && hms_reads_back f (k + 1)
  end.

(** The largest argument [timedelta(seconds=...)] accepts:
    999999999 days, 23 hours, 59 minutes, 59 seconds. *)
Definition max_seconds : Z := 86399999999999.

(** What a failed attempt adds to the trace after the attempt itself: the
    warning, and the backoff unless this was the last attempt. *)
Definition after_failure (max_retries attempt : Z) (e : exn) : trace :=
  logger_warning (py "Attempt " ++ str_of_int (attempt + 1) ++ py " failed: "
                     ++ exn_msg e)
  :: (if (attempt <? max_retries - 1)%Z then [time_sleep (2 ^ attempt)] else []).

(** The Fetcher's collaborator fails on every attempt. *)
Definition always_fails (w : World) (url : str) : Prop :=
  forall tr, exists e, fst (attempt_once w url tr) = inl e.

(** The collaborator fails twice after [tr], then hands out [yt]. *)
Definition fails_twice_then_succeeds (w : World) (url : str) (tr : trace)
           (yt : YouTube.t) : Prop :=
  forall ext,
    (constructions ext < 2 -> exists e, fst (attempt_once w url (tr ++ ext)) = inl e)
    /\ (constructions ext = 2 -> fst (attempt_once w url (tr ++ ext)) = inr yt).








(** An exception that no clause before the catch-all recognises. *)
Definition unrecognized_by_home (w : World) (e : exn) : Prop :=
  isinstance w e PytubeError = false
  /\ isinstance w e AgeRestrictedError = false
  /\ isinstance w e RegexMatchError = false.

Definition unrecognized_by_download (w : World) (e : exn) : Prop :=
  isinstance w e PytubeError = false.

Definition generic_home_page : Response :=
  render "home.html" [("error"%string, VStr (py "Failed to fetch video information"))].

Definition generic_download_page (url : str) : Response :=
  render "home.html"
         [("error"%string, VStr (py "Download failed. Please try again later."));
          ("url"%string, VStr url)].

Definition no_stream_page (url : str) : Response :=
  render "home.html"
         [("error"%string, VStr (py "No suitable stream found"));
          ("url"%string, VStr url)].


(* ================================================================== *)
(** ** Sample collaborators *)

(** The class hierarchy of [pytube.exceptions], as far as the classes the
    module imports go. *)
Definition pytube_derives (c base : string) : bool :=
  (String.eqb base PytubeError
   && (String.eqb c RegexMatchError || String.eqb c VideoUnavailable
       || String.eqb c AgeRestrictedError))
  || (String.eqb base VideoUnavailable && String.eqb c AgeRestrictedError).

(** An interpreter that knows the ASCII digits only. *)
Definition ascii_digits : Digits := MkDigits (fun _ => false) (fun _ => None).

Definition stream_360p : Stream := MkStream 18 (Some (py "360p")) true (py "mp4").
Definition stream_480p : Stream := MkStream 135 (Some (py "480p")) true (py "mp4").
Definition stream_720p : Stream := MkStream 22 (Some (py "720p")) true (py "mp4").

Definition sample_handle (streams : result StreamQuery) : YouTube.t :=
  YouTube.Make (inr (py "My Video! @#$%")) (inr 3661%Z) (inr 1234567%Z)
               (inr (py "Someone"))
               (inr (py "https://i.ytimg.com/vi/abc12345678/default.jpg"))
               (inr (py "abc12345678")) streams.

Definition good_handle : YouTube.t :=
  sample_handle (inr [stream_360p; stream_480p; stream_720p]).

(** A handle whose stream list cannot be read. *)
Definition broken_handle (detail : str) : YouTube.t :=
  sample_handle (inl (Exn "KeyError" detail)).

Definition was_downloaded (path : str) (ev : event) : bool :=
  match ev with
  | stream_download _ dir name _ => str_eqb (path_join dir name) path
  | _ => false
  end.

(** A world whose library and file system behave, around a given answer
    to the construction of the handle. *)
Definition sample_world (new : trace -> str -> result YouTube.t) : World :=
  {| MEDIA_ROOT := py "/srv/media";
     unicode_alnum := fun _ => false;
     digits_of_interpreter := ascii_digits;
     repr := fun s => [39%N] ++ s ++ [39%N];
     mime_encode := fun _ => inr (py "=?utf-8?b?Pz8/?=");
     derives := pytube_derives;
     new_YouTube := new;
     do_bypass_age_gate := fun _ _ => inr tt;
     get_vid_info := fun _ _ => inr tt;
     makedirs := fun _ _ => inr tt;
     download := fun _ _ _ _ _ => inr tt;
     path_exists := fun tr path => existsb (was_downloaded path) tr;
     file_contents := fun _ _ => inr [0%N; 0%N; 0%N; 24%N];
     progressive_mp4_desc := fun all => inr (Pytube.progressive_mp4_desc ascii_digits all);
     get_highest_resolution :=
       fun all => inr (Pytube.get_highest_resolution ascii_digits all);
     get_lowest_resolution :=
       fun all => inr (Pytube.get_lowest_resolution ascii_digits all);
     get_by_resolution :=
       fun all res => inr (Pytube.get_by_resolution all res) |}.

Definition network_down : exn := Exn "URLError" (py "<urlopen error timed out>").

(** The remote service is down. *)
Definition down_world : World := sample_world (fun _ _ => inl network_down).

(** The remote service fails twice, then answers. *)
Definition flaky_world : World :=
  sample_world (fun tr _ => if Nat.ltb (constructions tr) 2
                            then inl network_down else inr good_handle).

Definition good_world : World := sample_world (fun _ _ => inr good_handle).

(** A video-only stream of higher resolution than the progressive ones. *)
Definition stream_1080p_video : Stream :=
  MkStream 137 (Some (py "1080p")) false (py "mp4").

Definition mixed_streams : StreamQuery :=
  [stream_1080p_video; stream_360p; stream_720p].

(** The handle offers a 1080p stream that is not progressive. *)
Definition mixed_world : World :=
  sample_world (fun _ _ => inr (sample_handle (inr mixed_streams))).

(** The stream list raises an exception carrying [detail]. *)
Definition leaky_world (detail : str) : World :=
  sample_world (fun _ _ => inr (broken_handle detail)).

Definition sample_url : str := py "https://youtu.be/abc12345678".

Definition post (fields : list (string * string)) : Request :=
  MkRequest (py "POST") (List.map (fun kv => (py (fst kv), py (snd kv))) fields).

(* ================================================================== *)
(** ** Further vocabulary for the properties of the handlers *)

(** The full stop, which every host of the four shapes contains. *)
Definition dot : char := 46%N.

Definition no_dot (s : str) : bool := forallb (fun c => negb (char_eqb c dot)) s.

(** The URLs the handle was constructed with, in order. *)
Fixpoint init_urls (tr : trace) : list str :=
  match tr with
  | [] => []
  | YouTube_init url :: t => url :: init_urls t
  | _ :: t => init_urls t
  end.

(** The warnings logged, in order. *)
Fixpoint warnings (tr : trace) : list str :=
  match tr with
  | [] => []
  | logger_warning msg :: t => msg :: warnings t
  | _ :: t => warnings t
  end.

(** The collaborator fails [k] times after [tr], then hands out [yt]. *)
Definition fails_then_succeeds (w : World) (url : str) (tr : trace) (k : nat)
           (yt : YouTube.t) : Prop :=
  forall ext,
    (constructions ext < k -> exists e, fst (attempt_once w url (tr ++ ext)) = inl e)
    /\ (constructions ext = k -> fst (attempt_once w url (tr ++ ext)) = inr yt).

(** The first [k] waits of the exponential backoff: 1, 2, 4, ... *)
Definition backoff (k : nat) : list Z :=
  List.map (fun i => (2 ^ Z.of_nat i)%Z) (seq 0 k).

Definition sum (l : list Z) : Z := fold_right Z.add 0%Z l.

(** Events on the file system. *)
Definition touches_disk (ev : event) : bool :=
  match ev with
  | os_makedirs _ | stream_download _ _ _ _ | os_path_exists _ | read_file _ => true
  | _ => false
  end.

(** Events of the Fetcher: construction of the handle, the two calls on
    it, the warning and the backoff. *)
Definition fetch_event (ev : event) : bool :=
  match ev with
  | YouTube_init _ | bypass_age_gate | vid_info | time_sleep _ | logger_warning _ => true
  | _ => false
  end.

(** The canonical URL of some valid identifier. *)
Definition is_canonical (url : str) : Prop :=
  exists id, valid_id id /\ url = canonical id.

(** The keys of the context of a successful info page. *)
Definition success_keys : list string :=
  ["title"; "duration"; "views"; "author"; "thumbnail"; "streams"; "video_id";
   "clean_url"; "success"]%string.

Definition could_not_initialize_page (url : str) : Response :=
  render "home.html"
         [("error"%string, VStr (exn_msg could_not_initialize));
          ("url"%string, VStr url)].

(** What the Fetcher may add to a trace on behalf of a handler: events of
    the library, the log and the clock only, at most three constructions,
    each with a canonical URL, and at most three time units of sleep. *)
Definition fetch_only (ext : trace) : Prop :=
  forallb fetch_event ext = true
  /\ constructions ext <= 3
  /\ Forall is_canonical (init_urls ext)
  /\ (total_wait ext <= 3)%Z.

(** Events of the second half of [download_video]: the file system, and
    the error line of the catch-all clause. *)
Definition retrieval_event (ev : event) : bool :=
  match ev with
  | logger_error _ => true
  | _ => touches_disk ev
  end.

(** The response that serves a file, with the [Content-Disposition]
    header as it is stored. *)
Definition attachment (content : list N) (stored : str) : Response :=
  HttpResponse content (py "video/mp4") [("Content-Disposition"%string, stored)].

(** A header value that is stored as it is. *)
Definition plain_header (value : str) : bool :=
  forallb latin1 value && negb (existsb is_newline value).

Definition error_page (msg url : str) : Response :=
  render "home.html" [("error"%string, VStr msg); ("url"%string, VStr url)].

(** The page of the info endpoint with one error message. *)
Definition home_error_page (msg : str) : Response :=
  render "home.html" [("error"%string, VStr msg)].

(** The solidus, the quotation mark and the reverse solidus. *)
Definition slash : char := 47%N.
Definition quote : char := 34%N.
Definition backslash : char := 92%N.

(** The last character of a string, if any. *)
Definition last_char (s : str) : option char := List.last (List.map Some s) None.

(** A world in which the downloaded file is never found. *)
Definition lost_file_world : World :=
  {| MEDIA_ROOT := py "/srv/media";
     unicode_alnum := fun _ => false;
     digits_of_interpreter := ascii_digits;
     repr := fun s => [39%N] ++ s ++ [39%N];
     mime_encode := fun _ => inr (py "=?utf-8?b?Pz8/?=");
     derives := pytube_derives;
     new_YouTube := fun _ _ => inr good_handle;
     do_bypass_age_gate := fun _ _ => inr tt;
     get_vid_info := fun _ _ => inr tt;
     makedirs := fun _ _ => inr tt;
     download := fun _ _ _ _ _ => inr tt;
     path_exists := fun _ _ => false;
     file_contents := fun _ _ => inl (Exn "OSError" (py "no such file"));
     progressive_mp4_desc := fun all => inr (Pytube.progressive_mp4_desc ascii_digits all);
     get_highest_resolution :=
       fun all => inr (Pytube.get_highest_resolution ascii_digits all);
     get_lowest_resolution :=
       fun all => inr (Pytube.get_lowest_resolution ascii_digits all);
     get_by_resolution :=
       fun all res => inr (Pytube.get_by_resolution all res) |}.

(** Not the comma. *)
Definition not_comma (c : char) : bool := negb (char_eqb c 44).

(** The smallest argument [timedelta(seconds=...)] accepts: minus
    999999999 days. *)
Definition min_seconds : Z := (-86399999913600)%Z.

(* ================================================================== *)
(** ** Facts about Python text *)

Lemma str_eqb_spec (a b : str) : reflect (a = b) (str_eqb a b).
Proof.
  revert b; induction a as [|x a IH]; intros [|y b]; simpl;
    try (constructor; congruence).
  unfold char_eqb; destruct (N.eqb_spec x y) as [->|Hn]; simpl.
  - destruct (IH b) as [->|Hn]; constructor; congruence.
  - constructor; congruence.
Qed.

Lemma str_eqb_refl (a : str) : str_eqb a a = true.
Proof. destruct (str_eqb_spec a a); congruence. Qed.

(* ================================================================== *)
(** ** Facts about the matcher *)

Section MatcherFacts.
Variable A : Type.

(** Soundness of the backtracking matcher: a successful run consumed a
    word of the pattern and then ran its continuation on the rest. *)
Lemma bt_sound (r : regex) :
  forall (s : str) (g : option str) (k : str -> option str -> option A) (a : A),
    bt r s g k = Some a ->
    exists u s' g', s = u ++ s' /\ words r u /\ k s' g' = Some a.
Proof.
  induction r as [c|f|r1 IH1 r2 IH2|r1 IH1 r2 IH2|r1 IH1|n r1 IH1|r1 IH1];
    intros s g k a H; simpl in H.
  - destruct s as [|x t]; [discriminate|].
    unfold char_eqb in H; destruct (N.eqb_spec x c) as [->|]; [|discriminate].
    exists [c], t, g; repeat split; auto; constructor.
  - destruct s as [|x t]; [discriminate|].
    destruct (f x) eqn:Hf; [|discriminate].
    exists [x], t, g; repeat split; auto; constructor; exact Hf.
  - apply IH1 in H as (u & s1 & g1 & -> & Hu & H).
    apply IH2 in H as (v & s2 & g2 & -> & Hv & H).
    exists (u ++ v), s2, g2; rewrite app_assoc; repeat split; auto.
    constructor; assumption.
  - destruct (bt r1 s g k) as [a'|] eqn:E.
    + inversion H; subst a'.
      apply IH1 in E as (u & s1 & g1 & -> & Hu & E).
      exists u, s1, g1; repeat split; auto; apply w_or_l; exact Hu.
    + apply IH2 in H as (u & s1 & g1 & -> & Hu & H).
      exists u, s1, g1; repeat split; auto; apply w_or_r; exact Hu.
  - destruct (bt r1 s g k) as [a'|] eqn:E.
    + inversion H; subst a'.
      apply IH1 in E as (u & s1 & g1 & -> & Hu & E).
      exists u, s1, g1; repeat split; auto; apply w_maybe_some; exact Hu.
    + exists [], s, g; repeat split; auto; apply w_maybe_none.
  - revert s g H; induction n as [|n IHn]; intros s g H.
    + exists [], s, g; repeat split; auto; constructor.
    + apply IH1 in H as (u & s1 & g1 & -> & Hu & H).
      apply IHn in H as (v & s2 & g2 & -> & Hv & H).
      exists (u ++ v), s2, g2; rewrite app_assoc; repeat split; auto.
      constructor; assumption.
  - apply IH1 in H as (u & s1 & g1 & -> & Hu & H).
    eexists u, s1, _; repeat split; eauto; constructor; exact Hu.
Qed.

(** A run of [n] characters of a class is consumed by [Class f {n}]. *)
Lemma bt_times_class (f : char -> bool) (w : str) :
  forallb f w = true ->
  forall (rest : str) (g : option str) (k : str -> option str -> option A),
    bt (Times (List.length w) (Class f)) (w ++ rest) g k = k rest g.
Proof.
  induction w as [|c w IH]; intros Hw rest g k; [reflexivity|].
  simpl in Hw; apply andb_true_iff in Hw as [Hc Hw].
  cbn [List.length app]. simpl. rewrite Hc. exact (IH Hw rest g k).
Qed.
End MatcherFacts.

Lemma words_lit_from (c : char) (s v : str) : words (lit_from c s) v -> v = c :: s.
Proof.
  revert c v; induction s as [|d t IH]; intros c v H; simpl in H.
  - inversion H; reflexivity.
  - inversion H as [| |r1 r2 u w Hu Hw| | | | | | |]; subst.
    inversion Hu; subst. apply IH in Hw; subst; reflexivity.
Qed.

Lemma words_lit (l : string) (v : str) : py l <> [] -> words (lit l) v -> v = py l.
Proof.
  unfold lit; destruct (py l) as [|c t]; [congruence|].
  intros _ H; apply words_lit_from; exact H.
Qed.

(** Every word of a shape contains its literal part. *)
Lemma words_shape (l : string) (v : str) :
  py l <> [] -> words (shape l) v -> exists a b, v = a ++ py l ++ b.
Proof.
  intros Hl H; unfold shape in H.
  inversion H as [| |r1 r2 a w Ha Hw| | | | | | |]; subst.
  inversion Hw as [| |r1 r2 m b Hm Hb| | | | | | |]; subst.
  apply (words_lit Hl) in Hm; subst m.
  exists a, b; reflexivity.
Qed.

(** An input made of identifier characters only has no match of a shape
    whose literal part has a character outside the identifier class. *)
Lemma match_here_idchars (l : string) (t : str) :
  forallb idchar (py l) = false ->
  forallb idchar t = true ->
  match_here (shape l) t = None.
Proof.
  intros Hl Ht; destruct (match_here (shape l) t) as [m|] eqn:E; [|reflexivity].
  exfalso. unfold match_here in E.
  apply bt_sound in E as (u & s' & g' & -> & Hu & _).
  assert (Hne : py l <> []) by (intros Heq; rewrite Heq in Hl; discriminate).
  destruct (words_shape Hne Hu) as (a & b & ->).
  rewrite !forallb_app in Ht.
  apply andb_true_iff in Ht as [Ht _].
  apply andb_true_iff in Ht as [_ Ht].
  apply andb_true_iff in Ht as [Ht _].
  congruence.
Qed.

Lemma search_idchars (l : string) (t : str) :
  forallb idchar (py l) = false ->
  forallb idchar t = true ->
  search (shape l) t = None.
Proof.
  intros Hl; induction t as [|c t IH]; intros Ht.
  - simpl; rewrite (match_here_idchars Hl Ht); reflexivity.
  - cbn [search]; rewrite (match_here_idchars Hl Ht).
    simpl in Ht; apply andb_true_iff in Ht as [_ Ht]; exact (IH Ht).
Qed.

Lemma words_times_class (f : char -> bool) (n : nat) (v : str) :
  words (Times n (Class f)) v -> List.length v = n /\ forallb f v = true.
Proof.
  revert v; induction n as [|n IH]; intros v Hv; inversion Hv; subst;
    [split; reflexivity|].
  match goal with
  | Hc : words (Class _) _ |- _ => inversion Hc; subst
  end.
  match goal with
  | Ht : words (Times n _) _ |- _ => destruct (IH _ Ht) as [Hl Hf]
  end.
  simpl; split; [congruence|]. rewrite Hf, andb_true_r; assumption.
Qed.

Lemma bt_group_unfold (A : Type) (r : regex) (s : str) (g : option str)
      (k : str -> option str -> option A) :
  bt (Group r) s g k
  = bt r s g (fun s' _ => k s' (Some (firstn (List.length s - List.length s') s))).
Proof. reflexivity. Qed.

(** [group(1)] of any match of a shape is a run of exactly 11 identifier
    characters: the length test of the loop never fails after a match. *)
Lemma bt_id_group_capture (A : Type) (s : str) (g : option str)
      (k : str -> option str -> option A) (a : A) :
  bt id_group s g k = Some a ->
  exists w s', s = w ++ s' /\ List.length w = 11 /\ forallb idchar w = true
               /\ k s' (Some w) = Some a.
Proof.
  unfold id_group; rewrite bt_group_unfold; intros H.
  apply bt_sound in H as (u & s' & g' & -> & Hu & H).
  exists u, s'.
  destruct (words_times_class Hu) as [Hl Hf].
  rewrite length_app, Nat.add_sub, firstn_app, Nat.sub_diag, firstn_all in H.
  simpl in H; rewrite app_nil_r in H. auto.
Qed.

(** The identifier group consumes a valid identifier and captures it. *)
Lemma bt_id_group_run (A : Type) (id rest : str) (g : option str)
      (k : str -> option str -> option A) :
  List.length id = 11 -> forallb idchar id = true ->
  bt id_group (id ++ rest) g k = k rest (Some id).
Proof.
  intros Hl Hf; unfold id_group; rewrite bt_group_unfold, <- Hl.
  rewrite (bt_times_class Hf).
  rewrite length_app, Nat.add_sub, firstn_app, Nat.sub_diag, firstn_all.
  simpl; rewrite app_nil_r; reflexivity.
Qed.

Lemma bt_cat_unfold (A : Type) (r1 r2 : regex) (s : str) (g : option str)
      (k : str -> option str -> option A) :
  bt (Cat r1 r2) s g k = bt r1 s g (fun s' g' => bt r2 s' g' k).
Proof. reflexivity. Qed.

(** What a match of a shape looks like: the literal part occurs in the
    input and group 1 is the run of 11 identifier characters after it. *)
Lemma match_here_shape_inv (l : string) (s : str) (m : Match) :
  py l <> [] ->
  match_here (shape l) s = Some m ->
  exists a w b, s = a ++ py l ++ w ++ b /\ group1 m = Some w
                /\ List.length w = 11 /\ forallb idchar w = true.
Proof.
  intros Hl H; unfold match_here, shape in H.
  rewrite bt_cat_unfold in H.
  apply bt_sound in H as (a & s1 & g1 & -> & _ & H).
  rewrite bt_cat_unfold in H.
  apply bt_sound in H as (u & s2 & g2 & -> & Hu & H).
  apply (words_lit Hl) in Hu; subst u.
  apply bt_id_group_capture in H as (w & b & -> & Hlen & Hw & H).
  inversion H; subst m.
  exists a, w, b; auto.
Qed.

Lemma search_shape_inv (l : string) (s : str) (m : Match) :
  py l <> [] ->
  search (shape l) s = Some m ->
  exists a w b, s = a ++ py l ++ w ++ b /\ group1 m = Some w
                /\ List.length w = 11 /\ forallb idchar w = true.
Proof.
  intros Hl; induction s as [|c s IH]; cbn [search]; intros H.
  - destruct (match_here (shape l) []) eqn:E; [|discriminate].
    inversion H; subst; exact (match_here_shape_inv Hl E).
  - destruct (match_here (shape l) (c :: s)) eqn:E.
    + inversion H; subst; exact (match_here_shape_inv Hl E).
    + destruct (IH H) as (a & w & b & -> & Hg & Hlen & Hw).
      exists (c :: a), w, b; auto.
Qed.

Lemma search_at_head (r : regex) (s : str) (m : Match) :
  match_here r s = Some m -> search r s = Some m.
Proof. intros H; destruct s; cbn [search]; rewrite H; reflexivity. Qed.

Lemma search_skip (r : regex) (c : char) (s : str) :
  match_here r (c :: s) = None -> search r (c :: s) = search r s.
Proof. intros H; cbn [search]; rewrite H; reflexivity. Qed.

(* ================================================================== *)
(** ** sanitize_youtube_url *)

Arguments id_group : simpl never.
Arguments canonical : simpl never.

(** C1: for every valid 11-character identifier, each of the four accepted
    URL shapes around it (with or without the scheme and the [www.] or [m.]
    prefix) is normalised to the same canonical URL,
    [https://www.youtube.com/watch?v=<id>]. *)
Theorem sanitize_accepted_shapes (id : str) (scheme sub host_path : string) :
  valid_id id ->
  In scheme schemes -> In sub subdomains -> In host_path shapes ->
  sanitize_youtube_url (py scheme ++ py sub ++ py host_path ++ id)
  = inr (canonical id).
Proof.
  intros [Hl Hf] Hsc Hsd Hsh.
  assert (N1 := @search_idchars "youtu.be/" id eq_refl Hf).
  assert (N2 := @search_idchars "youtube.com/watch?v=" id eq_refl Hf).
  assert (N3 := @search_idchars "youtube.com/embed/" id eq_refl Hf).
  assert (R := fun A g k => @bt_id_group_run A id [] g k Hl Hf).
  rewrite app_nil_r in R.
  unfold schemes, subdomains, shapes in Hsc, Hsd, Hsh; simpl In in Hsc, Hsd, Hsh.
  destruct Hsc as [<-|[<-|[<-|[]]]];
    destruct Hsd as [<-|[<-|[<-|[]]]];
    destruct Hsh as [<-|[<-|[<-|[<-|[]]]]];
    unfold sanitize_youtube_url, patterns, sanitize_loop;
    cbn; rewrite ?N1, ?N2, ?N3, R; cbn; rewrite Hl; reflexivity.
Qed.

Lemma sanitize_accepted_shapes_witness :
  sanitize_youtube_url (py "https://" ++ py "www." ++ py "youtube.com/embed/"
                           ++ py "abc12345678")
  = inr (py "https://www.youtube.com/watch?v=abc12345678").
Proof.
  apply (@sanitize_accepted_shapes (py "abc12345678") "https://" "www."
                                   "youtube.com/embed/").
  - split; reflexivity.
  - simpl; auto.
  - simpl; auto.
  - simpl; auto.
Defined.

Lemma sanitize_loop_rejected (ps : list regex) (url : str) :
  (forall p, In p ps -> search p url = None) ->
  sanitize_loop ps url = inl RegexMatchError_call.
Proof.
  induction ps as [|p ps IH]; intros H; [reflexivity|].
  cbn [sanitize_loop].
  rewrite (H p (or_introl eq_refl)).
  exact (IH (fun q Hq => H q (or_intror Hq))).
Qed.

(** C2 (what the code does instead): on an input in which no pattern has a
    match the Normalizer does not fail with the format error.  The [raise]
    calls the constructor of [RegexMatchError] with one argument where it
    takes two, so the call itself fails with [TypeError], and that is the
    exception the callers see. *)
Theorem sanitize_invalid_raises_type_error (url : str) :
  (forall p, In p patterns -> search p url = None) ->
  sanitize_youtube_url url = inl RegexMatchError_call
  /\ exn_class RegexMatchError_call = TypeError
  /\ exn_class RegexMatchError_call <> RegexMatchError.
Proof.
  intros H; split; [exact (sanitize_loop_rejected H)|].
  split; [reflexivity|discriminate].
Qed.

Lemma sanitize_invalid_raises_type_error_witness :
  sanitize_youtube_url (py "https://vimeo.com/12345") = inl RegexMatchError_call
  /\ exn_class RegexMatchError_call = TypeError
  /\ exn_class RegexMatchError_call <> RegexMatchError.
Proof.
  apply (@sanitize_invalid_raises_type_error (py "https://vimeo.com/12345")).
  intros p Hp; unfold patterns in Hp; simpl in Hp.
  destruct Hp as [<-|[<-|[<-|[<-|[]]]]]; vm_compute; reflexivity.
Defined.

(** The token a shape captures is always 11 characters long, so the
    Normalizer fails exactly when no pattern has a match. *)
Lemma sanitize_fails_iff_no_match (url : str) :
  (exists e, sanitize_youtube_url url = inl e)
  <-> forall p, In p patterns -> search p url = None.
Proof.
  assert (Hne : forall l, In l shapes -> py l <> []).
  { intros l Hl; unfold shapes in Hl; simpl in Hl.
    destruct Hl as [<-|[<-|[<-|[<-|[]]]]]; discriminate. }
  assert (Hstep : forall l ps, In l shapes ->
            (exists e, sanitize_loop (shape l :: ps) url = inl e)
            <-> (search (shape l) url = None /\ exists e, sanitize_loop ps url = inl e)).
  { intros l ps Hl; cbn [sanitize_loop].
    destruct (search (shape l) url) as [m|] eqn:E.
    - destruct (search_shape_inv (Hne l Hl) E) as (a & g & b & _ & Hg & Hlen & _).
      rewrite Hg, Hlen; simpl. split.
      + intros [e He]; discriminate.
      + intros [Hn _]; discriminate.
    - split; [intros H; split; [reflexivity|exact H]|intros [_ H]; exact H]. }
  unfold sanitize_youtube_url, patterns.
  rewrite Hstep by (simpl; auto).
  rewrite Hstep by (simpl; auto).
  rewrite Hstep by (simpl; auto).
  rewrite Hstep by (simpl; auto).
  split.
  - intros (H1 & H2 & H3 & H4 & _) p Hp; simpl in Hp.
    destruct Hp as [<-|[<-|[<-|[<-|[]]]]]; assumption.
  - intros H; repeat split; try (apply H; simpl; auto).
    eexists; reflexivity.
Qed.

(* ================================================================== *)
(** ** format_duration *)

Lemma hms_roundtrip_day : hms_reads_back (Z.to_nat 86400) 0 = true.
Proof. vm_compute. reflexivity. Qed.

Lemma hms_reads_back_sound (fuel : nat) :
  forall k r, hms_reads_back fuel k = true ->
              (k <= r < k + Z.of_nat fuel)%Z -> parse_hms (hms r) = Some r.
Proof.
  induction fuel as [|f IH]; intros k r H Hr; [lia|].
  cbn [hms_reads_back] in H; apply andb_true_iff in H as [Hk H].
  destruct (Z.eq_dec r k) as [->|Hne].
  - destruct (parse_hms (hms k)) as [v|]; [|discriminate].
    apply Z.eqb_eq in Hk; congruence.
  - apply (IH (k + 1)%Z r H); lia.
Qed.

(** Within one day, the string is exactly [H:MM:SS] and reads back as the
    seconds count. *)
Lemma parse_hms_hms (r : Z) :
  (0 <= r < 86400)%Z -> parse_hms (hms r) = Some r.
Proof.
  intros Hr; apply (hms_reads_back_sound hms_roundtrip_day); lia.
Qed.

Lemma timedelta_accepts (n : Z) :
  (-999999999 <= n / 86400 <= 999999999)%Z ->
  timedelta n = inr ((n / 86400)%Z, (n mod 86400)%Z).
Proof.
  intros Hd; unfold timedelta.
  destruct (Z.ltb_spec (n / 86400) (-2147483648)); [lia|].
  destruct (Z.gtb_spec (n / 86400) 2147483647); [lia|]; cbn [orb].
  destruct (Z.gtb_spec (Z.abs (n / 86400)) 999999999); [lia|reflexivity].
Qed.

Lemma timedelta_overflows (n : Z) :
  (999999999 < Z.abs (n / 86400))%Z ->
  exists e, timedelta n = inl e /\ exn_class e = OverflowError.
Proof.
  intros Hd; unfold timedelta.
  destruct ((n / 86400 <? -2147483648)%Z || (n / 86400 >? 2147483647)%Z);
    [eexists; split; reflexivity|].
  destruct (Z.gtb_spec (Z.abs (n / 86400)) 999999999); [|lia].
  eexists; split; reflexivity.
Qed.

Lemma timedelta_in_range (n : Z) :
  (0 <= n <= max_seconds)%Z ->
  timedelta n = inr ((n / 86400)%Z, (n mod 86400)%Z).
Proof.
  unfold max_seconds; intros Hn; apply timedelta_accepts.
  split; [assert (0 <= n / 86400)%Z by (apply Z.div_pos; lia); lia|].
  apply Z.lt_succ_r, Z.div_lt_upper_bound; lia.
Qed.

Lemma digits_fuel_are_digits (fuel : nat) :
  forall (n : N) (acc : str),
    forallb is_digit acc = true ->
    forallb is_digit (digits_fuel fuel n acc) = true.
Proof.
  induction fuel as [|f IH]; intros n acc Hacc; [exact Hacc|].
  cbn [digits_fuel].
  assert (Hd : forallb is_digit ((48 + n mod 10)%N :: acc) = true).
  { cbn [forallb]; apply andb_true_iff; split; [|exact Hacc].
    unfold is_digit, in_range.
    assert (Hm : (n mod 10 < 10)%N) by (apply N.mod_lt; discriminate).
    revert Hm; generalize (n mod 10)%N; intros x Hx.
    apply andb_true_iff; split; apply N.leb_le; lia. }
  destruct (n <? 10)%N; [exact Hd|exact (IH _ _ Hd)].
Qed.

Lemma read_hours_stops (ds : str) (c : char) (rest : str) :
  forallb is_digit ds = true ->
  is_digit c = false -> char_eqb c 58 = false ->
  forall acc seen, read_hours (ds ++ c :: rest) acc seen = None.
Proof.
  intros Hds Hc Hcolon; induction ds as [|d ds IH]; intros acc seen.
  - cbn [app read_hours]; rewrite Hc, Hcolon; reflexivity.
  - cbn [forallb] in Hds; apply andb_true_iff in Hds as [Hd Hds].
    cbn [app read_hours]; rewrite Hd; exact (IH Hds _ _).
Qed.

(** A string that starts with a day count is not of the form [H:MM:SS]. *)
Lemma parse_hms_day_prefix (days : Z) (rest : str) :
  (0 < days)%Z -> parse_hms (day_prefix days ++ rest) = None.
Proof.
  intros Hd; unfold parse_hms, day_prefix, str_of_int.
  destruct (Z.ltb_spec days 0); [lia|].
  rewrite <- !app_assoc.
  change (py " day" ++ ?x) with (32%N :: (py "day" ++ x)).
  rewrite read_hours_stops; try reflexivity.
  unfold digits; apply digits_fuel_are_digits; reflexivity.
Qed.

(** C8 (what the code does instead): from one day on, up to the largest
    accepted argument, the formatter does not return a string of the form
    [H:MM:SS], as its docstring promises: it returns the day count, ["day"] or
    ["days"], a comma, and [H:MM:SS] for the rest of the day only. *)
Theorem format_duration_from_one_day (n : Z) :
  (86400 <= n <= max_seconds)%Z ->
  format_duration n = inr (day_prefix (n / 86400) ++ hms (n mod 86400))
  /\ parse_hms (day_prefix (n / 86400) ++ hms (n mod 86400)) = None.
Proof.
  intros Hn.
  assert (1 <= n / 86400)%Z by (apply Z.div_le_lower_bound; lia).
  split; [|apply parse_hms_day_prefix; lia].
  unfold format_duration; rewrite timedelta_in_range by lia.
  unfold timedelta_str.
  destruct (Z.eqb_spec (n / 86400) 0); [lia|reflexivity].
Qed.

Lemma format_duration_from_one_day_witness :
  format_duration 90000 = inr (day_prefix (90000 / 86400) ++ hms (90000 mod 86400))
  /\ parse_hms (day_prefix (90000 / 86400) ++ hms (90000 mod 86400)) = None.
Proof.
  apply (@format_duration_from_one_day 90000%Z); unfold max_seconds; lia.
Defined.

(** The failing input of C8, evaluated. *)
Example format_duration_one_day_one_hour :
  format_duration 90000 = inr (py "1 day, 1:00:00")
  /\ parse_hms (py "1 day, 1:00:00") = None
  /\ format_duration 86400000000000
     = inl (Exn OverflowError (py "days=1000000000; must have magnitude <= 999999999"))
  /\ format_duration 100000000000000000000
     = inl (Exn OverflowError (py "Python int too large to convert to C int")).
Proof. repeat split; vm_compute; reflexivity. Qed.

(** The reader of [H:MM:SS] strings takes no minutes or seconds from 60 on
    and no padded hours. *)
Example parse_hms_exact :
  parse_hms (py "1:01:01") = Some 3661%Z
  /\ parse_hms (py "25:00:00") = Some 90000%Z
  /\ parse_hms (py "0:00:75") = None
  /\ parse_hms (py "0:99:99") = None
  /\ parse_hms (py "01:01:01") = None
  /\ parse_hms (py "1:1:1") = None.
Proof. repeat split; vm_compute; reflexivity. Qed.

(** X24: on a seconds count of less than one day the formatter returns
    exactly [H:MM:SS], hours without padding, minutes and seconds on two
    digits and below 60, and the string denotes that count; 0 gives
    ["0:00:00"] and 3661 gives ["1:01:01"]. *)
Theorem format_duration_within_a_day (n : Z) :
  (0 <= n < 86400)%Z ->
  format_duration n = inr (hms n)
  /\ parse_hms (hms n) = Some n
  /\ format_duration 0 = inr (py "0:00:00")
  /\ format_duration 3661 = inr (py "1:01:01").
Proof.
  intros Hn; split; [|split; [apply parse_hms_hms; lia|split; reflexivity]].
  unfold format_duration; rewrite timedelta_in_range by (unfold max_seconds; lia).
  unfold timedelta_str.
  rewrite Z.div_small, Z.mod_small by lia; reflexivity.
Qed.

Lemma format_duration_within_a_day_witness :
  format_duration 86399 = inr (hms 86399)
  /\ parse_hms (hms 86399) = Some 86399%Z
  /\ format_duration 0 = inr (py "0:00:00")
  /\ format_duration 3661 = inr (py "1:01:01").
Proof.
  apply (@format_duration_within_a_day 86399%Z); lia.
Defined.

(* ================================================================== *)
(** ** File names *)

Lemma keep_char_forbidden (w : World) (c : char) :
  forbidden w c = negb (keep_char w c).
Proof.
  unfold forbidden, keep_char.
  destruct (isalnum w c), (char_eqb c 32), (char_eqb c 45), (char_eqb c 95);
    reflexivity.
Qed.

Lemma strip_forbidden_filter (w : World) (s : str) :
  strip_forbidden w s = List.filter (keep_char w) s.
Proof.
  induction s as [|c t IH]; [reflexivity|]; simpl.
  rewrite keep_char_forbidden, IH; destruct (keep_char w c); reflexivity.
Qed.

Lemma rstrip_snoc (s : str) (c : char) :
  rstrip (s ++ [c]) = if isspace c then rstrip s else s ++ [c].
Proof.
  unfold rstrip; rewrite rev_app_distr; simpl.
  destruct (isspace c); [reflexivity|].
  simpl; rewrite rev_involutive; reflexivity.
Qed.

Lemma rstrip_cons (c : char) (s : str) :
  rstrip (c :: s)
  = match rstrip s with
    | [] => if isspace c then [] else [c]
    | t => c :: t
    end.
Proof.
  revert c; induction s as [|d s IH] using rev_ind; intros c.
  - unfold rstrip; simpl; destruct (isspace c); reflexivity.
  - change (c :: s ++ [d]) with ((c :: s) ++ [d]).
    rewrite !rstrip_snoc. destruct (isspace d).
    + apply IH.
    + destruct s; reflexivity.
Qed.

Lemma trim_trailing_rstrip (s : str) : trim_trailing s = rstrip s.
Proof.
  induction s as [|c t IH]; [reflexivity|].
  rewrite rstrip_cons; simpl; rewrite IH; reflexivity.
Qed.

(** C5: for every title and identifier the file name is the title without
    the characters that are not alphanumeric, space, hyphen or underscore,
    without trailing white space, followed by [_<id>.mp4]; the title
    [My Video! @#$%] with [abc12345678] gives [My Video_abc12345678.mp4]. *)
Theorem filename_policy (w : World) (title video_id : str) :
  make_filename w title video_id = spec_filename w title video_id
  /\ make_filename w (py "My Video! @#$%") (py "abc12345678")
     = py "My Video_abc12345678.mp4".
Proof.
  split.
  - unfold make_filename, spec_filename, safe_title.
    rewrite trim_trailing_rstrip, strip_forbidden_filter; reflexivity.
  - reflexivity.
Qed.

(* ================================================================== *)
(** ** Traces *)

Lemma constructions_app (a b : trace) :
  constructions (a ++ b) = constructions a + constructions b.
Proof. unfold constructions; rewrite filter_app, length_app; reflexivity. Qed.

Lemma waits_app (a b : trace) : waits (a ++ b) = waits a ++ waits b.
Proof.
  induction a as [|ev a IH]; [reflexivity|].
  destruct ev; simpl; rewrite IH; reflexivity.
Qed.

Lemma downloads_app (a b : trace) : downloads (a ++ b) = downloads a ++ downloads b.
Proof.
  induction a as [|ev a IH]; [reflexivity|].
  destruct ev; simpl; rewrite IH; reflexivity.
Qed.

(* ================================================================== *)
(** ** get_yt_object *)

(** One attempt constructs the handle once, and neither sleeps nor
    downloads. *)
Lemma attempt_once_trace (w : World) (url : str) (tr : trace) :
  exists ext, snd (attempt_once w url tr) = tr ++ ext
              /\ constructions ext = 1 /\ waits ext = [] /\ downloads ext = [].
Proof.
  unfold attempt_once, bind, call, ret.
  destruct (new_YouTube w tr url) as [e|yt].
  - exists [YouTube_init url]; repeat split; reflexivity.
  - destruct (do_bypass_age_gate w (tr ++ [YouTube_init url]) yt) as [e|[]].
    + exists [YouTube_init url; bypass_age_gate]; simpl.
      rewrite <- app_assoc; repeat split; reflexivity.
    + destruct (get_vid_info w _ yt) as [e|[]];
        exists [YouTube_init url; bypass_age_gate; vid_info]; simpl;
        rewrite <- !app_assoc; repeat split; reflexivity.
Qed.

Lemma retry_loop_failure (w : World) (url : str) (m a : Z) (rest : list Z)
      (tr : trace) (e : exn) :
  fst (attempt_once w url tr) = inl e ->
  retry_loop w url m (a :: rest) tr
  = retry_loop w url m rest (snd (attempt_once w url tr) ++ after_failure m a e).
Proof.
  intros H; cbn [retry_loop]; unfold try_except at 1.
  destruct (attempt_once w url tr) as [r tr']; simpl in H; subst r; simpl.
  unfold bind, emit, ret, after_failure.
  destruct (a <? m - 1)%Z; simpl; rewrite <- ?app_assoc; reflexivity.
Qed.

Lemma retry_loop_success (w : World) (url : str) (m a : Z) (rest : list Z)
      (tr : trace) (yt : YouTube.t) :
  fst (attempt_once w url tr) = inr yt ->
  retry_loop w url m (a :: rest) tr = (inr yt, snd (attempt_once w url tr)).
Proof.
  intros H; cbn [retry_loop]; unfold try_except.
  destruct (attempt_once w url tr) as [r tr']; simpl in H; subst r; reflexivity.
Qed.

Lemma range_3 : range 3 = [0; 1; 2]%Z.
Proof. reflexivity. Qed.

(** One failed attempt, seen from the trace. *)
Lemma failed_attempt_trace (w : World) (url : str) (m a : Z) (tr : trace) (e : exn) :
  exists ext,
    snd (attempt_once w url tr) ++ after_failure m a e = tr ++ ext
    /\ constructions ext = 1
    /\ waits ext = (if (a <? m - 1)%Z then [(2 ^ a)%Z] else []).
Proof.
  destruct (attempt_once_trace w url tr) as (ext & -> & Hc & Hw & _).
  exists (ext ++ after_failure m a e); rewrite app_assoc.
  rewrite constructions_app, waits_app, Hc, Hw; unfold after_failure.
  destruct (a <? m - 1)%Z; repeat split; reflexivity.
Qed.

(** C3 (amended): with the default of 3 retries, a construction that fails
    on every attempt is tried exactly 3 times, with waits of 1 and 2 time
    units between the attempts and none after the last, and the Fetcher
    then fails with the generic error; a service that fails twice and then
    succeeds yields the handle after exactly 3 attempts and a total wait of
    1+2 time units. *)
Theorem retry_schedule (w : World) (url : str) (tr : trace) :
  (always_fails w url ->
   exists ext,
     get_yt_object w url 3 tr = (inl could_not_initialize, tr ++ ext)
     /\ constructions ext = 3 /\ waits ext = [1; 2]%Z)
  /\ (forall yt, fails_twice_then_succeeds w url tr yt ->
      exists ext,
        get_yt_object w url 3 tr = (inr yt, tr ++ ext)
        /\ constructions ext = 3 /\ waits ext = [1; 2]%Z
        /\ (1 + 2 <= total_wait ext)%Z).
Proof.
  unfold get_yt_object; rewrite range_3; split.
  - intros Hfail.
    destruct (Hfail tr) as [e0 H0].
    rewrite (retry_loop_failure _ _ _ H0).
    destruct (failed_attempt_trace w url 3 0 tr e0) as (x0 & -> & C0 & W0).
    destruct (Hfail (tr ++ x0)) as [e1 H1].
    rewrite (retry_loop_failure _ _ _ H1).
    destruct (failed_attempt_trace w url 3 1 (tr ++ x0) e1) as (x1 & -> & C1 & W1).
    destruct (Hfail ((tr ++ x0) ++ x1)) as [e2 H2].
    rewrite (retry_loop_failure _ _ _ H2).
    destruct (failed_attempt_trace w url 3 2 ((tr ++ x0) ++ x1) e2)
      as (x2 & -> & C2 & W2).
    exists (x0 ++ x1 ++ x2); cbn [retry_loop]; unfold raise.
    rewrite !constructions_app, !waits_app, C0, C1, C2, W0, W1, W2, <- !app_assoc.
    repeat split; reflexivity.
  - intros yt Hflaky.
    destruct (proj1 (Hflaky []) ltac:(unfold constructions; simpl; lia)) as [e0 H0].
    rewrite app_nil_r in H0.
    rewrite (retry_loop_failure _ _ _ H0).
    destruct (failed_attempt_trace w url 3 0 tr e0) as (x0 & -> & C0 & W0).
    destruct (proj1 (Hflaky x0) ltac:(lia)) as [e1 H1].
    rewrite (retry_loop_failure _ _ _ H1).
    destruct (failed_attempt_trace w url 3 1 (tr ++ x0) e1) as (x1 & -> & C1 & W1).
    assert (H2 := proj2 (Hflaky (x0 ++ x1))
                        ltac:(rewrite constructions_app; lia)).
    rewrite app_assoc in H2.
    rewrite (retry_loop_success _ _ _ H2).
    destruct (attempt_once_trace w url ((tr ++ x0) ++ x1)) as (x2 & -> & C2 & W2 & _).
    exists (x0 ++ x1 ++ x2).
    unfold total_wait.
    rewrite !constructions_app, !waits_app, C0, C1, C2, W0, W1, W2, <- !app_assoc.
    repeat split; simpl; lia.
Qed.

Lemma down_world_always_fails (url : str) : always_fails down_world url.
Proof. intros tr; exists network_down; reflexivity. Qed.

Lemma flaky_world_fails_twice (url : str) :
  fails_twice_then_succeeds flaky_world url [] good_handle.
Proof.
  intros ext; unfold attempt_once, bind, call, ret; simpl; split; intros H.
  - exists network_down.
    destruct (Nat.ltb_spec (constructions ext) 2); [reflexivity|lia].
  - rewrite H; reflexivity.
Qed.

Lemma retry_schedule_witness :
  (exists ext,
     get_yt_object down_world sample_url 3 [] = (inl could_not_initialize, [] ++ ext)
     /\ constructions ext = 3 /\ waits ext = [1; 2]%Z)
  /\ (exists ext,
        get_yt_object flaky_world sample_url 3 [] = (inr good_handle, [] ++ ext)
        /\ constructions ext = 3 /\ waits ext = [1; 2]%Z
        /\ (1 + 2 <= total_wait ext)%Z).
Proof.
  split.
  - apply (proj1 (retry_schedule down_world sample_url [])).
    apply down_world_always_fails.
  - apply (proj2 (retry_schedule flaky_world sample_url []) good_handle).
    apply flaky_world_fails_twice.
Defined.

(** C3, as stated, fails: when every attempt fails there are three
    attempts but only two waits, of 1 and 2 time units; no wait of 4 time
    units follows the last attempt. *)
Lemma retry_schedule_counterexample :
  always_fails down_world sample_url
  /\ constructions (snd (get_yt_object down_world sample_url 3 [])) = 3
  /\ waits (snd (get_yt_object down_world sample_url 3 [])) = [1; 2]%Z
  /\ waits (snd (get_yt_object down_world sample_url 3 [])) <> [1; 2; 4]%Z.
Proof.
  split; [apply down_world_always_fails|].
  repeat split; try (vm_compute; reflexivity).
  vm_compute; discriminate.
Qed.

(* ================================================================== *)
(** ** The empty-input check *)

Lemma dropwhile_all (f : char -> bool) (s : str) :
  forallb f s = true -> dropwhile f s = [].
Proof.
  induction s as [|c t IH]; [reflexivity|]; simpl; intros H.
  apply andb_true_iff in H as [Hc Ht]; rewrite Hc; exact (IH Ht).
Qed.

Lemma strip_whitespace (s : str) : forallb isspace s = true -> strip s = [].
Proof.
  intros H; unfold strip, lstrip; rewrite (dropwhile_all H); reflexivity.
Qed.

Lemma method_POST (request : Request) :
  method request = py "POST" -> str_eqb (method request) (py "POST") = true.
Proof. intros ->; reflexivity. Qed.

(** C6: a submission to the download endpoint whose [url] field is empty
    is answered with the 400 response, and the trace is left as it was: the
    Fetcher is not invoked and no network call is made. *)
Theorem download_empty_url (w : World) (request : Request) (tr : trace) :
  method request = py "POST" ->
  POST_get request "url" "" = [] ->
  download_video w request tr
  = (inr (HttpResponseBadRequest (py "No URL provided")), tr)
  /\ status_code (HttpResponseBadRequest (py "No URL provided")) = 400%Z
  /\ constructions (snd (download_video w request tr)) = constructions tr.
Proof.
  intros Hm Hu.
  assert (E : download_video w request tr
              = (inr (HttpResponseBadRequest (py "No URL provided")), tr)).
  { unfold download_video; rewrite (method_POST Hm), Hu; reflexivity. }
  rewrite E; repeat split; reflexivity.
Qed.

Lemma download_empty_url_witness :
  download_video down_world (post [("url"%string, ""%string)]) []
  = (inr (HttpResponseBadRequest (py "No URL provided")), [])
  /\ status_code (HttpResponseBadRequest (py "No URL provided")) = 400%Z
  /\ constructions (snd (download_video down_world
                                        (post [("url"%string, ""%string)]) []))
     = constructions [].
Proof.
  apply (@download_empty_url down_world (post [("url"%string, ""%string)]) []);
    reflexivity.
Defined.

(** C10: both handlers strip the [url] field before they test it for
    emptiness: a field made of white space only is rejected as empty, with
    the error page on the info endpoint and the 400 response on the
    download endpoint, and the trace is left as it was (the Fetcher is not
    invoked). *)
Theorem whitespace_url_rejected (w : World) (request : Request) (tr : trace) :
  method request = py "POST" ->
  forallb isspace (POST_get request "url" "") = true ->
  home w request tr
  = (inr (render "home.html"
                 [("error"%string, VStr (py "Please enter a YouTube URL"))]), tr)
  /\ download_video w request tr
     = (inr (HttpResponseBadRequest (py "No URL provided")), tr).
Proof.
  intros Hm Hs; unfold home, download_video.
  rewrite (method_POST Hm), (strip_whitespace Hs); split; reflexivity.
Qed.

Lemma whitespace_url_rejected_witness :
  home good_world (MkRequest (py "POST") [(py "url", [32; 9; 160; 10]%N)]) []
  = (inr (render "home.html"
                 [("error"%string, VStr (py "Please enter a YouTube URL"))]), [])
  /\ download_video good_world
                    (MkRequest (py "POST") [(py "url", [32; 9; 160; 10]%N)]) []
     = (inr (HttpResponseBadRequest (py "No URL provided")), []).
Proof.
  apply (@whitespace_url_rejected good_world
           (MkRequest (py "POST") [(py "url", [32; 9; 160; 10]%N)]) []);
    reflexivity.
Defined.

(* ================================================================== *)
(** ** The library's stream queries *)

Section SortedFacts.
Variable A : Type.
Variable leb : A -> A -> bool.




Hypothesis leb_total : forall a b, leb a b = true \/ leb b a = true.
Hypothesis leb_trans :
  forall a b c, leb a b = true -> leb b c = true -> leb a c = true.






End SortedFacts.














(* ================================================================== *)
(** ** Stream selection *)

Lemma falsy_nonempty (url : str) : url <> [] -> falsy url = false.
Proof. destruct url; [congruence|reflexivity]. Qed.

Lemma isinstance_same_class (w : World) (c : string) (msg : str) :
  isinstance w (Exn c msg) c = true.
Proof. unfold isinstance; simpl; rewrite String.eqb_refl; reflexivity. Qed.

(** Sequencing, once the first computation is known. *)
Lemma bind_returns (A B : Type) (m : M A) (f : A -> M B) (tr tr' : trace) (a : A) :
  m tr = (inr a, tr') -> bind m f tr = f a tr'.
Proof. intros H; unfold bind; rewrite H; reflexivity. Qed.

Lemma bind_raises (A B : Type) (m : M A) (f : A -> M B) (tr tr' : trace) (e : exn) :
  m tr = (inl e, tr') -> bind m f tr = (inl e, tr').
Proof. intros H; unfold bind; rewrite H; reflexivity. Qed.

Lemma lift_returns (A : Type) (r : result A) (a : A) (tr : trace) :
  r = inr a -> lift r tr = (inr a, tr).
Proof. intros ->; reflexivity. Qed.

(** The first half of the body of [download_video], up to the selection. *)
Lemma download_try_selected (w : World) (url quality clean_url : str)
      (tr tr1 : trace) (yt : YouTube.t) (all : StreamQuery) (found : option Stream) :
  sanitize_youtube_url url = inr clean_url ->
  get_yt_object w clean_url 3 tr = (inr yt, tr1) ->
  YouTube.streams yt = inr all ->
  select_stream w quality all = inr found ->
  download_try w url quality tr
  = match found with
    | None => (inl no_suitable_stream, tr1)
    | Some stream => retrieve w yt stream tr1
    end.
Proof.
  intros Hs Hy Hall Hsel; unfold download_try.
  rewrite (bind_returns _ (lift_returns tr Hs)).
  rewrite (bind_returns _ Hy).
  rewrite (bind_returns _ (lift_returns tr1 Hall)).
  rewrite (bind_returns _ (lift_returns tr1 Hsel)).
  destruct found; reflexivity.
Qed.






(** The example of the specification: among 360p, 480p and 720p, all
    progressive mp4, ["highest"] downloads 720p, ["lowest"] 360p, ["480p"]
    the 480p stream, and ["1080p"] nothing. *)
Example selection_among_three :
  let run quality :=
      download_video good_world
        (post [("url"%string, "youtu.be/abc12345678"%string);
               ("quality"%string, quality)]) [] in
  downloads (snd (run "highest"%string)) = [stream_720p]
  /\ downloads (snd (run "lowest"%string)) = [stream_360p]
  /\ downloads (snd (run "480p"%string)) = [stream_480p]
  /\ downloads (snd (run "1080p"%string)) = []
  /\ fst (run "1080p"%string) = inr (no_stream_page (py "youtu.be/abc12345678")).
Proof. vm_compute. repeat split; reflexivity. Qed.


(** With an empty [quality] field the first progressive mp4 stream is
    downloaded, whatever its label. *)
Example empty_quality_downloads_first :
  downloads (snd (download_video mixed_world
                    (post [("url"%string, "youtu.be/abc12345678"%string);
                           ("quality"%string, ""%string)]) []))
  = [stream_360p].
Proof. vm_compute. reflexivity. Qed.

(* ================================================================== *)
(** ** The default quality *)





(** Without the field, the sample submission downloads the 720p stream. *)
Example default_quality_downloads_720p :
  downloads (snd (download_video good_world
                    (post [("url"%string, "youtu.be/abc12345678"%string)]) []))
  = [stream_720p].
Proof. vm_compute. reflexivity. Qed.


(* ================================================================== *)
(** ** The catch-all clauses *)

(** C7: when the body of a handler raises an exception that no earlier
    clause recognises, the response is the fixed generic page ("failed to
    fetch" on the info endpoint, "download failed, try again later" on the
    download endpoint) whatever the exception says; its text goes to the
    log only.  Two runs that differ in the exception raised give the same
    response. *)
Theorem generic_message_only
        (w1 w2 : World) (request : Request) (url : str)
        (tr1 tr2 t1 t2 : trace) (e1 e2 : exn) :
  submits request url -> url <> [] ->
  (home_try w1 url tr1 = (inl e1, t1) -> home_try w2 url tr2 = (inl e2, t2) ->
   unrecognized_by_home w1 e1 -> unrecognized_by_home w2 e2 ->
   home w1 request tr1
   = (inr generic_home_page,
      t1 ++ [logger_error (py "Error processing URL " ++ url ++ py ": " ++ exn_msg e1)])
   /\ fst (home w2 request tr2) = fst (home w1 request tr1))
  /\ (download_try w1 url (POST_get request "quality" "highest") tr1 = (inl e1, t1) ->
      download_try w2 url (POST_get request "quality" "highest") tr2 = (inl e2, t2) ->
      unrecognized_by_download w1 e1 -> unrecognized_by_download w2 e2 ->
      download_video w1 request tr1
      = (inr (generic_download_page url),
         t1 ++ [logger_error (py "Download failed for " ++ url ++ py ": " ++ exn_msg e1)])
      /\ fst (download_video w2 request tr2) = fst (download_video w1 request tr1)).
Proof.
  intros [Hm Hu] Hne; split.
  - intros H1 H2 (A1 & B1 & C1) (A2 & B2 & C2).
    unfold home; rewrite (method_POST Hm), Hu, (falsy_nonempty Hne).
    unfold bind, try_except; rewrite H1, H2.
    unfold home_except; rewrite A1, B1, C1, A2, B2, C2.
    split; reflexivity.
  - intros H1 H2 A1 A2; unfold unrecognized_by_download in A1, A2.
    unfold download_video; rewrite (method_POST Hm), Hu, (falsy_nonempty Hne).
    unfold try_except; rewrite H1, H2.
    unfold download_except; rewrite A1, A2.
    split; reflexivity.
Qed.

Lemma generic_message_only_witness :
  fst (home (leaky_world (py "token=hunter2"))
            (post [("url"%string, "youtu.be/abc12345678"%string)]) [])
  = fst (home (leaky_world (py "streamingData"))
              (post [("url"%string, "youtu.be/abc12345678"%string)]) []).
Proof.
  refine (proj2 (proj1 (@generic_message_only
            (leaky_world (py "streamingData")) (leaky_world (py "token=hunter2"))
            (post [("url"%string, "youtu.be/abc12345678"%string)])
            (py "youtu.be/abc12345678") [] []
            [YouTube_init (py "https://www.youtube.com/watch?v=abc12345678");
             bypass_age_gate; vid_info]
            [YouTube_init (py "https://www.youtube.com/watch?v=abc12345678");
             bypass_age_gate; vid_info]
            (Exn "KeyError" (py "streamingData")) (Exn "KeyError" (py "token=hunter2"))
            _ _) _ _ _ _)).
  - split; reflexivity.
  - discriminate.
  - vm_compute; reflexivity.
  - vm_compute; reflexivity.
  - repeat split; reflexivity.
  - repeat split; reflexivity.
Defined.

(* ================================================================== *)
(** ** More on sanitize_youtube_url *)

Lemma patterns_shapes : patterns = List.map shape shapes.
Proof. reflexivity. Qed.

Lemma shapes_nonempty (l : string) : In l shapes -> py l <> [].
Proof.
  unfold shapes; simpl; intros [<-|[<-|[<-|[<-|[]]]]]; discriminate.
Qed.

(** The loop over any list of shapes: either no shape has a match and the
    [raise] after the loop is reached, or the first shape that has one
    decides. *)
Lemma sanitize_loop_outcome (ls : list string) (url : str) :
  (forall l, In l ls -> py l <> []) ->
  (sanitize_loop (List.map shape ls) url = inl RegexMatchError_call
   /\ forall l, In l ls -> search (shape l) url = None)
  \/ exists l a id b,
      In l ls /\ url = a ++ py l ++ id ++ b /\ valid_id id
      /\ sanitize_loop (List.map shape ls) url = inr (canonical id).
Proof.
  induction ls as [|l ls IH]; intros Hne.
  - left; split; [reflexivity|intros l []].
  - cbn [List.map sanitize_loop].
    destruct (search (shape l) url) as [m|] eqn:E.
    + right.
      destruct (search_shape_inv (Hne l (or_introl eq_refl)) E)
        as (a & id & b & -> & Hg & Hlen & Hid).
      exists l, a, id, b; rewrite Hg, Hlen; cbn [Nat.eqb].
      repeat split; auto. left; reflexivity.
    + destruct (IH (fun l' H => Hne l' (or_intror H)))
        as [[Hr Hn]|(l' & a & id & b & Hin & -> & Hv & Hr)].
      * left; split; [exact Hr|].
        intros l' [<-|Hin]; [exact E|exact (Hn l' Hin)].
      * right; exists l', a, id, b; repeat split; auto; try apply Hv.
        right; exact Hin.
Qed.

(** X1: the Normalizer has two outcomes only.  Either no pattern has a
    match and the [raise] is reached, which fails with the [TypeError] of a
    constructor called with one argument too few; or the input contains one
    of the four host parts followed by 11 identifier characters and the
    result is the canonical URL of those 11 characters. *)
Theorem sanitize_outcome (url : str) :
  (sanitize_youtube_url url = inl RegexMatchError_call
   /\ forall p, In p patterns -> search p url = None)
  \/ exists l a id b,
      In l shapes /\ url = a ++ py l ++ id ++ b /\ valid_id id
      /\ sanitize_youtube_url url = inr (canonical id).
Proof.
  unfold sanitize_youtube_url; rewrite patterns_shapes.
  destruct (sanitize_loop_outcome url shapes_nonempty) as [[Hr Hn]|H].
  - left; split; [exact Hr|].
    intros p Hp; apply in_map_iff in Hp as (l & <- & Hl); exact (Hn l Hl).
  - right; exact H.
Qed.

(** A shape has no match in an input without a full stop. *)
Lemma match_here_no_dot (l : string) (t : str) :
  In dot (py l) -> no_dot t = true -> match_here (shape l) t = None.
Proof.
  intros Hl Ht; destruct (match_here (shape l) t) as [m|] eqn:E; [|reflexivity].
  exfalso.
  assert (Hne : py l <> []) by (intros Heq; rewrite Heq in Hl; exact Hl).
  destruct (match_here_shape_inv Hne E) as (a & w & b & -> & _).
  unfold no_dot in Ht; rewrite !forallb_app in Ht.
  apply andb_true_iff in Ht as [_ Ht].
  apply andb_true_iff in Ht as [Ht _].
  rewrite forallb_forall in Ht; specialize (Ht dot Hl).
  unfold char_eqb in Ht; rewrite N.eqb_refl in Ht; discriminate.
Qed.

Lemma search_no_dot (l : string) (t : str) :
  In dot (py l) -> no_dot t = true -> search (shape l) t = None.
Proof.
  intros Hl; induction t as [|c t IH]; intros Ht.
  - simpl; rewrite (match_here_no_dot Hl Ht); reflexivity.
  - cbn [search]; rewrite (match_here_no_dot Hl Ht).
    unfold no_dot in Ht; simpl in Ht; apply andb_true_iff in Ht as [_ Ht].
    exact (IH Ht).
Qed.

Lemma idchars_no_dot (id : str) : forallb idchar id = true -> no_dot id = true.
Proof.
  unfold no_dot; rewrite !forallb_forall; intros H c Hc; specialize (H c Hc).
  unfold char_eqb, dot; destruct (N.eqb_spec c 46) as [->|]; [discriminate|reflexivity].
Qed.

(** X2: whatever follows the 11 identifier characters is ignored, as long
    as it contains no full stop: query parameters are dropped and a token
    longer than 11 characters is cut to its first 11 characters instead of
    being rejected. *)
Theorem sanitize_ignores_suffix (id rest : str) (scheme sub host_path : string) :
  valid_id id -> no_dot rest = true ->
  In scheme schemes -> In sub subdomains -> In host_path shapes ->
  sanitize_youtube_url (py scheme ++ py sub ++ py host_path ++ id ++ rest)
  = inr (canonical id).
Proof.
  intros [Hl Hf] Hrest Hsc Hsd Hsh.
  assert (Hnd : no_dot (id ++ rest) = true).
  { unfold no_dot; rewrite forallb_app.
    apply andb_true_iff; split; [exact (idchars_no_dot Hf)|exact Hrest]. }
  assert (N1 := @search_no_dot "youtu.be/" (id ++ rest)
                                ltac:(simpl; tauto) Hnd).
  assert (N2 := @search_no_dot "youtube.com/watch?v=" (id ++ rest)
                                ltac:(simpl; tauto) Hnd).
  assert (N3 := @search_no_dot "youtube.com/embed/" (id ++ rest)
                                ltac:(simpl; tauto) Hnd).
  assert (R := fun A g k => @bt_id_group_run A id rest g k Hl Hf).
  unfold schemes, subdomains, shapes in Hsc, Hsd, Hsh; simpl In in Hsc, Hsd, Hsh.
  destruct Hsc as [<-|[<-|[<-|[]]]];
    destruct Hsd as [<-|[<-|[<-|[]]]];
    destruct Hsh as [<-|[<-|[<-|[<-|[]]]]];
    unfold sanitize_youtube_url, patterns, sanitize_loop;
    cbn; rewrite ?N1, ?N2, ?N3, R; cbn; rewrite Hl; reflexivity.
Qed.

Lemma sanitize_ignores_suffix_witness :
  sanitize_youtube_url (py "https://" ++ py "www." ++ py "youtube.com/watch?v="
                           ++ py "abc12345678" ++ py "XYZ&t=42s")
  = inr (canonical (py "abc12345678")).
Proof.
  apply (@sanitize_ignores_suffix (py "abc12345678") (py "XYZ&t=42s")
                                  "https://" "www." "youtube.com/watch?v=").
  - split; reflexivity.
  - reflexivity.
  - simpl; auto.
  - simpl; auto.
  - simpl; auto.
Defined.

(** The canonical URL of a valid identifier is a fixed point. *)
Lemma sanitize_canonical (id : str) :
  valid_id id -> sanitize_youtube_url (canonical id) = inr (canonical id).
Proof.
  intros [Hl Hf].
  assert (N1 := @search_idchars "youtu.be/" id eq_refl Hf).
  assert (R := fun A g k => @bt_id_group_run A id [] g k Hl Hf).
  rewrite app_nil_r in R.
  unfold canonical at 1.
  unfold sanitize_youtube_url, patterns, sanitize_loop.
  cbn; rewrite ?N1, R; cbn; rewrite Hl; reflexivity.
Qed.

(** X3: normalising is idempotent: a URL the Normalizer returns is
    accepted by the Normalizer and returned unchanged. *)
Theorem sanitize_idempotent (url clean_url : str) :
  sanitize_youtube_url url = inr clean_url ->
  sanitize_youtube_url clean_url = inr clean_url.
Proof.
  intros H.
  destruct (sanitize_loop_outcome url shapes_nonempty)
    as [[Hr _]|(l & a & id & b & _ & _ & Hv & Hr)];
    rewrite <- patterns_shapes in Hr; fold (sanitize_youtube_url url) in Hr;
    rewrite H in Hr; [discriminate|].
  inversion Hr; subst clean_url; exact (sanitize_canonical Hv).
Qed.

Lemma sanitize_idempotent_witness :
  sanitize_youtube_url (py "https://www.youtube.com/watch?v=abc12345678")
  = inr (py "https://www.youtube.com/watch?v=abc12345678").
Proof.
  apply (@sanitize_idempotent (py "m.youtube.com/embed/abc12345678?rel=0")).
  vm_compute; reflexivity.
Defined.


(* ================================================================== *)
(** ** More on get_yt_object *)

Lemma init_urls_app (a b : trace) : init_urls (a ++ b) = init_urls a ++ init_urls b.
Proof.
  induction a as [|ev a IH]; [reflexivity|].
  destruct ev; simpl; rewrite IH; reflexivity.
Qed.

Lemma warnings_app (a b : trace) : warnings (a ++ b) = warnings a ++ warnings b.
Proof.
  induction a as [|ev a IH]; [reflexivity|].
  destruct ev; simpl; rewrite IH; reflexivity.
Qed.

Lemma sum_snoc (l : list Z) (x : Z) : sum (l ++ [x]) = (sum l + x)%Z.
Proof.
  unfold sum; induction l as [|y l IH]; simpl; [lia|rewrite IH; lia].
Qed.

Lemma backoff_S (k : nat) : backoff (S k) = backoff k ++ [(2 ^ Z.of_nat k)%Z].
Proof. unfold backoff; rewrite seq_S, map_app; reflexivity. Qed.

Lemma sum_backoff (k : nat) : sum (backoff k) = (2 ^ Z.of_nat k - 1)%Z.
Proof.
  induction k as [|k IH]; [reflexivity|].
  rewrite backoff_S, sum_snoc, IH, Nat2Z.inj_succ, Z.pow_succ_r by lia; lia.
Qed.

Lemma filter_seq_below (b : Z) (len : nat) :
  List.filter (fun i => (Z.of_nat i <? b)%Z) (seq 0 len)
  = seq 0 (Nat.min (Z.to_nat b) len).
Proof.
  induction len as [|len IH]; [rewrite Nat.min_0_r; reflexivity|].
  rewrite seq_S, filter_app, IH; cbn [List.filter Nat.add].
  destruct (Z.ltb_spec (Z.of_nat len) b).
  - rewrite !Nat.min_r by lia. rewrite seq_S; reflexivity.
  - rewrite !Nat.min_l by lia. apply app_nil_r.
Qed.

(** One attempt, seen from the trace, in full. *)
Lemma attempt_once_events (w : World) (url : str) (tr : trace) :
  exists ext, snd (attempt_once w url tr) = tr ++ ext
              /\ constructions ext = 1 /\ init_urls ext = [url]
              /\ waits ext = [] /\ downloads ext = [] /\ warnings ext = [].
Proof.
  unfold attempt_once, bind, call, ret.
  destruct (new_YouTube w tr url) as [e|yt].
  - exists [YouTube_init url]; repeat split; reflexivity.
  - destruct (do_bypass_age_gate w (tr ++ [YouTube_init url]) yt) as [e|[]].
    + exists [YouTube_init url; bypass_age_gate]; simpl.
      rewrite <- app_assoc; repeat split; reflexivity.
    + destruct (get_vid_info w _ yt) as [e|[]];
        exists [YouTube_init url; bypass_age_gate; vid_info]; simpl;
        rewrite <- !app_assoc; repeat split; reflexivity.
Qed.

Lemma after_failure_events (m a : Z) (e : exn) :
  constructions (after_failure m a e) = 0
  /\ init_urls (after_failure m a e) = []
  /\ downloads (after_failure m a e) = []
  /\ waits (after_failure m a e) = (if (a <? m - 1)%Z then [(2 ^ a)%Z] else []).
Proof.
  unfold after_failure; destruct (a <? m - 1)%Z; repeat split; reflexivity.
Qed.

(** The loop when every attempt fails. *)
Lemma retry_loop_all_fail (w : World) (url : str) (m : Z) :
  always_fails w url ->
  forall (len a : nat) (tr : trace),
  exists ext,
    retry_loop w url m (List.map Z.of_nat (seq a len)) tr
    = (inl could_not_initialize, tr ++ ext)
    /\ constructions ext = len
    /\ List.length (warnings ext) = len
    /\ waits ext
       = List.map (fun i => (2 ^ Z.of_nat i)%Z)
                  (List.filter (fun i => (Z.of_nat i <? m - 1)%Z) (seq a len)).
Proof.
  intros Hfail; induction len as [|len IH]; intros a tr.
  - exists []; rewrite app_nil_r; repeat split; reflexivity.
  - cbn [seq List.map].
    destruct (Hfail tr) as [e He].
    rewrite (retry_loop_failure _ _ _ He).
    destruct (attempt_once_events w url tr) as (x & -> & Cx & _ & Wx & _ & Lx).
    destruct (after_failure_events m (Z.of_nat a) e) as (Ca & _ & _ & Wa).
    destruct (IH (S a) ((tr ++ x) ++ after_failure m (Z.of_nat a) e))
      as (ext & -> & Ce & Le & We).
    exists (x ++ after_failure m (Z.of_nat a) e ++ ext).
    rewrite <- !app_assoc; split; [reflexivity|].
    rewrite !constructions_app, !waits_app, Cx, Ca, Ce, Wx, Wa, We.
    split; [reflexivity|split].
    + rewrite !warnings_app, Lx, !length_app, Le.
      unfold after_failure; destruct (Z.of_nat a <? m - 1)%Z; reflexivity.
    + cbn [List.filter]; destruct (Z.of_nat a <? m - 1)%Z; reflexivity.
Qed.

(** X4: when every attempt fails, the Fetcher makes exactly [max_retries]
    attempts (none at all when [max_retries] is zero or negative), logs one
    warning per attempt, sleeps 1, 2, 4, ... between the attempts and not
    after the last one, [2^(max_retries-1) - 1] time units in all, and
    raises the "could not initialize" error. *)
Theorem fetch_exhausted (w : World) (url : str) (max_retries : Z) (tr : trace) :
  always_fails w url ->
  exists ext,
    get_yt_object w url max_retries tr = (inl could_not_initialize, tr ++ ext)
    /\ constructions ext = Z.to_nat max_retries
    /\ List.length (warnings ext) = Z.to_nat max_retries
    /\ waits ext = backoff (Z.to_nat max_retries - 1)
    /\ total_wait ext = (2 ^ Z.of_nat (Z.to_nat max_retries - 1) - 1)%Z.
Proof.
  intros Hfail; unfold get_yt_object, range.
  destruct (retry_loop_all_fail max_retries Hfail (Z.to_nat max_retries) 0 tr)
    as (ext & E & Ce & Le & We).
  exists ext; rewrite filter_seq_below in We.
  assert (Hmin : Nat.min (Z.to_nat (max_retries - 1)) (Z.to_nat max_retries)
                 = Z.to_nat max_retries - 1) by lia.
  rewrite Hmin in We; fold (backoff (Z.to_nat max_retries - 1)) in We.
  repeat split; auto.
  unfold total_wait; rewrite We; apply sum_backoff.
Qed.

Lemma fetch_exhausted_witness :
  exists ext,
    get_yt_object down_world sample_url 5 [] = (inl could_not_initialize, [] ++ ext)
    /\ constructions ext = Z.to_nat 5
    /\ List.length (warnings ext) = Z.to_nat 5
    /\ waits ext = backoff (Z.to_nat 5 - 1)
    /\ total_wait ext = (2 ^ Z.of_nat (Z.to_nat 5 - 1) - 1)%Z.
Proof.
  apply (@fetch_exhausted down_world sample_url 5%Z []).
  intros tr; exists network_down; reflexivity.
Defined.

(** The loop when the service answers after [j] more failures. *)
Lemma retry_loop_flaky (w : World) (url : str) (m : Z) (tr0 : trace) (k : nat)
      (yt : YouTube.t) :
  fails_then_succeeds w url tr0 k yt ->
  forall (j a more : nat) (x : trace),
    constructions x + j = k ->
    (Z.of_nat (a + j) < m)%Z ->
    exists ext,
      retry_loop w url m (List.map Z.of_nat (seq a (S (j + more)))) (tr0 ++ x)
      = (inr yt, (tr0 ++ x) ++ ext)
      /\ constructions ext = S j
      /\ waits ext = List.map (fun i => (2 ^ Z.of_nat i)%Z) (seq a j).
Proof.
  intros Hflaky; induction j as [|j IH]; intros a more x Hk Hm.
  - cbn [Nat.add seq List.map].
    assert (Hok := proj2 (Hflaky x) ltac:(lia)).
    rewrite (retry_loop_success _ _ _ Hok).
    destruct (attempt_once_events w url (tr0 ++ x)) as (ext & -> & C & _ & W & _).
    exists ext; repeat split; auto.
  - cbn [Nat.add seq List.map].
    destruct (proj1 (Hflaky x) ltac:(lia)) as [e He].
    rewrite (retry_loop_failure _ _ _ He).
    destruct (attempt_once_events w url (tr0 ++ x)) as (y & -> & Cy & _ & Wy & _).
    destruct (after_failure_events m (Z.of_nat a) e) as (Ca & _ & _ & Wa).
    set (z := after_failure m (Z.of_nat a) e) in *.
    replace (((tr0 ++ x) ++ y) ++ z) with (tr0 ++ (x ++ y ++ z))
      by (rewrite <- !app_assoc; reflexivity).
    destruct (IH (S a) more (x ++ y ++ z)) as (ext & E & Ce & We).
    { rewrite !constructions_app, Cy, Ca; lia. }
    { lia. }
    cbn [seq List.map] in E; rewrite E.
    exists (y ++ z ++ ext); rewrite <- !app_assoc; split; [reflexivity|].
    rewrite !constructions_app, !waits_app, Cy, Ca, Ce, Wy, Wa, We.
    destruct (Z.ltb_spec (Z.of_nat a) (m - 1)); [|lia].
    split; reflexivity.
Qed.

(** X5: when the service fails [k] times and then answers, and [k] is
    less than [max_retries], the Fetcher returns the handle after exactly
    [k+1] attempts and waits of 1, 2, ..., [2^(k-1)] time units, [2^k - 1]
    in all; with [k = 0] there is one attempt and no wait. *)
Theorem fetch_succeeds_after (w : World) (url : str) (max_retries : Z)
        (tr : trace) (k : nat) (yt : YouTube.t) :
  fails_then_succeeds w url tr k yt ->
  (Z.of_nat k < max_retries)%Z ->
  exists ext,
    get_yt_object w url max_retries tr = (inr yt, tr ++ ext)
    /\ constructions ext = S k
    /\ waits ext = backoff k
    /\ total_wait ext = (2 ^ Z.of_nat k - 1)%Z.
Proof.
  intros Hflaky Hk; unfold get_yt_object, range.
  replace (Z.to_nat max_retries) with (S (k + (Z.to_nat max_retries - S k))) by lia.
  destruct (@retry_loop_flaky w url max_retries tr k yt Hflaky k 0
              (Z.to_nat max_retries - S k) [])
    as (ext & E & Ce & We); [reflexivity|simpl; lia|].
  rewrite app_nil_r in E.
  exists ext; fold (backoff k) in We; repeat split; auto.
  unfold total_wait; rewrite We; apply sum_backoff.
Qed.

Lemma fetch_succeeds_after_witness :
  exists ext,
    get_yt_object flaky_world sample_url 3 [] = (inr good_handle, [] ++ ext)
    /\ constructions ext = 3
    /\ waits ext = backoff 2
    /\ total_wait ext = (2 ^ Z.of_nat 2 - 1)%Z.
Proof.
  apply (@fetch_succeeds_after flaky_world sample_url 3%Z [] 2 good_handle).
  - intros ext; unfold attempt_once, bind, call, ret; simpl; split; intros H.
    + exists network_down.
      destruct (Nat.ltb_spec (constructions ext) 2); [reflexivity|lia].
    + rewrite H; reflexivity.
  - lia.
Defined.

(** The loop, whatever the collaborators answer. *)
Lemma retry_loop_events (w : World) (url : str) (m : Z) (attempts : list Z) :
  forall tr,
  exists ext,
    snd (retry_loop w url m attempts tr) = tr ++ ext
    /\ (fst (retry_loop w url m attempts tr) = inl could_not_initialize
        \/ exists yt, fst (retry_loop w url m attempts tr) = inr yt)
    /\ constructions ext <= List.length attempts
    /\ Forall (eq url) (init_urls ext)
    /\ downloads ext = [].
Proof.
  induction attempts as [|a rest IH]; intros tr.
  - exists []; rewrite app_nil_r; simpl; repeat split; auto.
  - destruct (attempt_once_events w url tr) as (x & Ex & Cx & Ux & _ & Dx & _).
    destruct (fst (attempt_once w url tr)) as [e|yt] eqn:E.
    + rewrite (retry_loop_failure _ _ _ E), Ex.
      destruct (after_failure_events m a e) as (Ca & Ua & Da & _).
      destruct (IH ((tr ++ x) ++ after_failure m a e))
        as (ext & Es & Hr & Ce & Ue & De).
      exists (x ++ after_failure m a e ++ ext).
      split; [rewrite Es, <- !app_assoc; reflexivity|split; [exact Hr|]].
      rewrite !constructions_app, !init_urls_app, !downloads_app,
        Cx, Ca, Ux, Ua, Dx, Da, De.
      repeat split; simpl; [lia|constructor; auto].
    + rewrite (retry_loop_success _ _ _ E), Ex.
      exists x; cbn [fst snd]; rewrite Cx, Ux, Dx.
      repeat split; simpl; eauto; lia.
Qed.

(** X6: whatever the library raises, the Fetcher itself raises nothing
    but the "could not initialize" error: every exception of an attempt is
    swallowed.  It constructs the handle at most [max_retries] times, always
    with the URL it was given, and downloads nothing. *)
Theorem fetch_outcome (w : World) (url : str) (max_retries : Z) (tr : trace) :
  exists ext,
    snd (get_yt_object w url max_retries tr) = tr ++ ext
    /\ (fst (get_yt_object w url max_retries tr) = inl could_not_initialize
        \/ exists yt, fst (get_yt_object w url max_retries tr) = inr yt)
    /\ constructions ext <= Z.to_nat max_retries
    /\ Forall (eq url) (init_urls ext)
    /\ downloads ext = [].
Proof.
  unfold get_yt_object.
  destruct (retry_loop_events w url max_retries (range max_retries) tr)
    as (ext & E & Hr & Ce & Ue & De).
  exists ext; unfold range in Ce; rewrite length_map, length_seq in Ce; auto.
Qed.

Lemma Forall_fetch_app (a b : trace) :
  forallb fetch_event (a ++ b) = forallb fetch_event a && forallb fetch_event b.
Proof. apply forallb_app. Qed.

Lemma attempt_once_fetch (w : World) (url : str) (tr : trace) :
  exists ext, snd (attempt_once w url tr) = tr ++ ext
              /\ forallb fetch_event ext = true.
Proof.
  unfold attempt_once, bind, call, ret.
  destruct (new_YouTube w tr url) as [e|yt].
  - exists [YouTube_init url]; split; reflexivity.
  - destruct (do_bypass_age_gate w (tr ++ [YouTube_init url]) yt) as [e|[]].
    + exists [YouTube_init url; bypass_age_gate]; simpl.
      rewrite <- app_assoc; split; reflexivity.
    + destruct (get_vid_info w _ yt) as [e|[]];
        exists [YouTube_init url; bypass_age_gate; vid_info]; simpl;
        rewrite <- !app_assoc; split; reflexivity.
Qed.

(** The waits of the loop are the backoff of the failed attempts that
    were not the last one. *)
Lemma retry_loop_waits (w : World) (url : str) (m : Z) :
  forall (len a : nat) (tr : trace),
  exists ext j,
    snd (retry_loop w url m (List.map Z.of_nat (seq a len)) tr) = tr ++ ext
    /\ forallb fetch_event ext = true
    /\ j <= len
    /\ waits ext
       = List.map (fun i => (2 ^ Z.of_nat i)%Z)
                  (List.filter (fun i => (Z.of_nat i <? m - 1)%Z) (seq a j)).
Proof.
  induction len as [|len IH]; intros a tr.
  - exists [], 0; rewrite app_nil_r; repeat split; auto.
  - cbn [seq List.map].
    destruct (attempt_once_events w url tr) as (x & Ex & _ & _ & Wx & _).
    destruct (attempt_once_fetch w url tr) as (x' & Ex' & Fx).
    rewrite Ex in Ex'; apply app_inv_head in Ex'; subst x'.
    destruct (fst (attempt_once w url tr)) as [e|yt] eqn:E.
    + rewrite (retry_loop_failure _ _ _ E), Ex.
      destruct (IH (S a) ((tr ++ x) ++ after_failure m (Z.of_nat a) e))
        as (ext & j & Es & Fe & Hj & We).
      exists (x ++ after_failure m (Z.of_nat a) e ++ ext), (S j).
      split; [rewrite Es, <- !app_assoc; reflexivity|].
      rewrite !forallb_app, !waits_app, Fx, Fe, Wx, We.
      destruct (after_failure_events m (Z.of_nat a) e) as (_ & _ & _ & Wa).
      rewrite Wa; cbn [seq List.filter].
      unfold after_failure.
      destruct (Z.of_nat a <? m - 1)%Z; repeat split; simpl; auto; lia.
    + rewrite (retry_loop_success _ _ _ E), Ex.
      exists x, 0; cbn [snd]; rewrite Wx; repeat split; auto; lia.
Qed.

(** X7: the Fetcher touches nothing but the library, the log and the
    clock, and its waits are an initial part of the backoff 1, 2, 4, ...:
    it never sleeps more than [2^(max_retries-1) - 1] time units in all. *)
Theorem fetch_waits_bounded (w : World) (url : str) (max_retries : Z) (tr : trace) :
  exists ext j,
    snd (get_yt_object w url max_retries tr) = tr ++ ext
    /\ forallb fetch_event ext = true
    /\ j <= Z.to_nat max_retries - 1
    /\ waits ext = backoff j
    /\ (total_wait ext <= 2 ^ Z.of_nat (Z.to_nat max_retries - 1) - 1)%Z.
Proof.
  unfold get_yt_object, range.
  destruct (retry_loop_waits w url max_retries (Z.to_nat max_retries) 0 tr)
    as (ext & j & E & F & Hj & W).
  rewrite filter_seq_below in W.
  exists ext, (Nat.min (Z.to_nat (max_retries - 1)) j).
  fold (backoff (Nat.min (Z.to_nat (max_retries - 1)) j)) in W.
  repeat split; auto; [lia|].
  unfold total_wait; rewrite W.
  fold (sum (backoff (Nat.min (Z.to_nat (max_retries - 1)) j))).
  rewrite sum_backoff.
  apply Z.sub_le_mono_r, Z.pow_le_mono_r; lia.
Qed.

(* ================================================================== *)
(** ** What the handlers do to the outside world *)

Lemma total_wait_app (a b : trace) :
  total_wait (a ++ b) = (total_wait a + total_wait b)%Z.
Proof.
  unfold total_wait; rewrite waits_app.
  induction (waits a) as [|x l IH]; simpl; [reflexivity|rewrite IH; lia].
Qed.

Lemma fetch_only_nil : fetch_only [].
Proof.
  unfold fetch_only, constructions, total_wait; simpl.
  repeat split; auto; lia.
Qed.

Lemma sanitize_gives_canonical (url clean_url : str) :
  sanitize_youtube_url url = inr clean_url -> is_canonical clean_url.
Proof.
  intros H.
  destruct (sanitize_loop_outcome url shapes_nonempty)
    as [[Hr _]|(l & a & id & b & _ & _ & Hv & Hr)];
    rewrite <- patterns_shapes in Hr; fold (sanitize_youtube_url url) in Hr;
    rewrite H in Hr; [discriminate|].
  inversion Hr; exists id; auto.
Qed.

(** The Fetcher, as the handlers call it. *)
Lemma fetch_three (w : World) (url : str) (tr : trace) :
  is_canonical url ->
  exists ext, snd (get_yt_object w url 3 tr) = tr ++ ext /\ fetch_only ext.
Proof.
  intros Hc; unfold get_yt_object.
  destruct (retry_loop_events w url 3 (range 3) tr) as (ext & E & _ & C & U & _).
  destruct (retry_loop_waits w url 3 3 0 tr) as (ext' & j & E' & F & Hj & W).
  change (List.map Z.of_nat (seq 0 3)) with (range 3) in E'.
  rewrite E in E'; apply app_inv_head in E'; subst ext'.
  exists ext; split; [exact E|].
  repeat split; auto.
  - eapply Forall_impl; [|exact U]. intros u <-; exact Hc.
  - unfold total_wait; rewrite W.
    destruct j as [|[|[|[|j]]]]; simpl; lia.
Qed.

Lemma home_try_trace (w : World) (url : str) (tr : trace) :
  snd (home_try w url tr) = tr
  \/ exists clean_url,
      sanitize_youtube_url url = inr clean_url
      /\ snd (home_try w url tr) = snd (get_yt_object w clean_url 3 tr).
Proof.
  unfold home_try, bind, lift.
  destruct (sanitize_youtube_url url) as [e|clean_url]; [left; reflexivity|].
  right; exists clean_url; split; [reflexivity|].
  destruct (get_yt_object w clean_url 3 tr) as [[e|yt] tr1]; [reflexivity|].
  cbn [snd].
  repeat match goal with
         | |- context [match ?r with inl _ => _ | inr _ => _ end] =>
             destruct r; try reflexivity
         end.
Qed.

Lemma home_try_context (w : World) (url : str) (tr tr' : trace) (context : dict) :
  home_try w url tr = (inr context, tr') -> List.map fst context = success_keys.
Proof.
  unfold home_try, bind, lift.
  destruct (sanitize_youtube_url url) as [e|clean_url]; [discriminate|].
  destruct (get_yt_object w clean_url 3 tr) as [[e|yt] tr1]; [discriminate|].
  repeat match goal with
         | |- context [match ?r with inl _ => _ | inr _ => _ end] =>
             destruct r; try discriminate
         end.
  unfold ret; intros H; inversion H; reflexivity.
Qed.

Lemma home_except_result (w : World) (url : str) (e : exn) (tr : trace) :
  exists msg,
    fst (home_except w url e tr) = inr [("error"%string, VStr msg)]
    /\ (snd (home_except w url e tr) = tr
        \/ exists line, snd (home_except w url e tr) = tr ++ [logger_error line]).
Proof.
  unfold home_except, bind, emit, ret.
  destruct (isinstance w e PytubeError); [eexists; split; [reflexivity|left; reflexivity]|].
  destruct (isinstance w e AgeRestrictedError);
    [eexists; split; [reflexivity|left; reflexivity]|].
  destruct (isinstance w e RegexMatchError);
    [eexists; split; [reflexivity|left; reflexivity]|].
  eexists; split; [reflexivity|right; eexists; reflexivity].
Qed.

(** X8: the info endpoint always answers with the page [home.html],
    whatever the collaborators do, and its context has one of three shapes:
    empty (no submission), a single [error] entry, or the nine entries of a
    success; an error never comes with video data. *)
Theorem home_response_shape (w : World) (request : Request) (tr : trace) :
  exists context,
    fst (home w request tr) = inr (render "home.html" context)
    /\ (context = []
        \/ (exists msg, context = [("error"%string, VStr msg)])
        \/ List.map fst context = success_keys).
Proof.
  unfold home.
  destruct (str_eqb (method request) (py "POST")).
  2:{ exists []; split; [reflexivity|left; reflexivity]. }
  destruct (falsy (strip (POST_get request "url" ""))).
  { eexists; split; [reflexivity|right; left; eexists; reflexivity]. }
  set (url := strip (POST_get request "url" "")).
  unfold bind, try_except, ret.
  destruct (home_try w url tr) as [[e|context] tr1] eqn:E.
  - destruct (home_except_result w url e tr1) as (msg & Hf & _).
    destruct (home_except w url e tr1) as [r tr2]; simpl in Hf; subst r.
    eexists; split; [reflexivity|right; left; eexists; reflexivity].
  - exists context; split; [reflexivity|right; right].
    exact (home_try_context E).
Qed.

Lemma fetch_event_not_disk (ext : trace) :
  forallb fetch_event ext = true -> List.filter touches_disk ext = [].
Proof.
  induction ext as [|ev ext IH]; [reflexivity|]; simpl; intros H.
  apply andb_true_iff in H as [Hev H].
  destruct ev; try discriminate; simpl; exact (IH H).
Qed.

Lemma fetch_only_log (ext : trace) (line : str) :
  fetch_only ext ->
  List.filter touches_disk (ext ++ [logger_error line]) = []
  /\ constructions (ext ++ [logger_error line]) <= 3
  /\ Forall is_canonical (init_urls (ext ++ [logger_error line]))
  /\ (total_wait (ext ++ [logger_error line]) <= 3)%Z.
Proof.
  intros (F & C & U & W).
  rewrite filter_app, constructions_app, init_urls_app, total_wait_app,
    (fetch_event_not_disk F); simpl.
  rewrite app_nil_r; unfold constructions at 2, total_wait at 2; simpl.
  repeat split; auto; lia.
Qed.

(** X9: the info endpoint never touches the file system.  All it adds to
    the trace are the calls of the Fetcher and, in the catch-all clause,
    one error line: at most three constructions of the handle, each with a
    canonical URL, and at most three time units of sleep. *)
Theorem home_effects (w : World) (request : Request) (tr : trace) :
  exists ext,
    snd (home w request tr) = tr ++ ext
    /\ List.filter touches_disk ext = []
    /\ constructions ext <= 3
    /\ Forall is_canonical (init_urls ext)
    /\ (total_wait ext <= 3)%Z.
Proof.
  assert (Hnil : exists ext, tr = tr ++ ext
                             /\ List.filter touches_disk ext = []
                             /\ constructions ext <= 3
                             /\ Forall is_canonical (init_urls ext)
                             /\ (total_wait ext <= 3)%Z).
  { exists []; rewrite app_nil_r; destruct fetch_only_nil as (_ & C & U & W).
    repeat split; auto. }
  unfold home.
  destruct (str_eqb (method request) (py "POST")); [|exact Hnil].
  destruct (falsy (strip (POST_get request "url" ""))); [exact Hnil|].
  set (url := strip (POST_get request "url" "")).
  assert (Htry : exists ext, snd (home_try w url tr) = tr ++ ext /\ fetch_only ext).
  { destruct (home_try_trace w url tr) as [E|(clean_url & Hs & E)]; rewrite E.
    - exists []; rewrite app_nil_r; split; [reflexivity|exact fetch_only_nil].
    - exact (fetch_three w tr (sanitize_gives_canonical Hs)). }
  destruct Htry as (ext & E & Hext).
  unfold bind, try_except, ret.
  destruct (home_try w url tr) as [[e|context] tr1]; cbn [snd] in E; subst tr1.
  - destruct (home_except_result w url e (tr ++ ext)) as (msg & Hf & Hs).
    destruct (home_except w url e (tr ++ ext)) as [r tr2].
    cbn [fst snd] in Hf, Hs; subst r; cbn [snd].
    destruct Hs as [->|[line ->]].
    + exists ext; destruct Hext as (F & C & U & W).
      repeat split; auto; exact (fetch_event_not_disk F).
    + exists (ext ++ [logger_error line]); rewrite app_assoc.
      split; [reflexivity|exact (fetch_only_log line Hext)].
  - exists ext; destruct Hext as (F & C & U & W).
    repeat split; auto; exact (fetch_event_not_disk F).
Qed.

(** The second half of [download_video], whatever the collaborators
    answer: it touches the file system only, and either fails, having
    downloaded the stream or nothing, or serves a file it downloaded. *)
Lemma retrieve_outcome (w : World) (yt : YouTube.t) (stream : Stream) (tr : trace) :
  exists ext,
    snd (retrieve w yt stream tr) = tr ++ ext
    /\ forallb touches_disk ext = true
    /\ ((exists e, fst (retrieve w yt stream tr) = inl e
                   /\ (downloads ext = [] \/ downloads ext = [stream]))
        \/ (exists content title video_id stored,
               stored_header w (disposition (make_filename w title video_id))
               = inr stored
               /\ fst (retrieve w yt stream tr) = inr (attachment content stored)
               /\ downloads ext = [stream])).
Proof.
  unfold retrieve, bind, call, lift, ret, raise, attachment.
  set (dir := path_join (MEDIA_ROOT w) (py "downloads")).
  destruct (makedirs w tr dir) as [e|[]].
  { exists [os_makedirs dir]; repeat split; auto.
    left; exists e; split; [reflexivity|left; reflexivity]. }
  destruct (YouTube.title yt) as [e|title].
  { exists [os_makedirs dir]; repeat split; auto.
    left; exists e; split; [reflexivity|left; reflexivity]. }
  destruct (YouTube.video_id yt) as [e|video_id].
  { exists [os_makedirs dir]; repeat split; auto.
    left; exists e; split; [reflexivity|left; reflexivity]. }
  set (name := make_filename w title video_id).
  destruct (download w (tr ++ [os_makedirs dir]) stream dir name 30) as [e|[]].
  { exists [os_makedirs dir; stream_download stream dir name 30].
    rewrite <- app_assoc; repeat split; auto.
    left; exists e; split; [reflexivity|right; reflexivity]. }
  destruct (path_exists w _ (path_join dir name)).
  - destruct (file_contents w _ (path_join dir name)) as [e|content];
      [|destruct (stored_header w (disposition name)) as [e|stored] eqn:Hh];
      exists [os_makedirs dir; stream_download stream dir name 30;
              os_path_exists (path_join dir name); read_file (path_join dir name)];
      rewrite <- !app_assoc; (split; [reflexivity|]); (split; [reflexivity|]).
    + left; exists e; split; [reflexivity|right; reflexivity].
    + left; exists e; split; [reflexivity|right; reflexivity].
    + right; exists content, title, video_id, stored.
      split; [exact Hh|split; reflexivity].
  - exists [os_makedirs dir; stream_download stream dir name 30;
            os_path_exists (path_join dir name)];
      rewrite <- !app_assoc; repeat split; auto.
    left; eexists; split; [reflexivity|right; reflexivity].
Qed.

(** The body of the [try] of [download_video], whatever the collaborators
    answer. *)
Lemma download_try_outcome (w : World) (url quality : str) (tr : trace) :
  exists ef ed,
    snd (download_try w url quality tr) = tr ++ ef ++ ed
    /\ fetch_only ef
    /\ forallb touches_disk ed = true
    /\ ((exists e, fst (download_try w url quality tr) = inl e
                   /\ List.length (downloads ed) <= 1)
        \/ (exists content title video_id stored stream,
               stored_header w (disposition (make_filename w title video_id))
               = inr stored
               /\ fst (download_try w url quality tr)
                  = inr (attachment content stored)
               /\ downloads ed = [stream])).
Proof.
  unfold download_try, bind, lift.
  destruct (sanitize_youtube_url url) as [e|clean_url] eqn:Hs.
  { exists [], []; rewrite app_nil_r; repeat split; try apply fetch_only_nil.
    left; exists e; split; [reflexivity|simpl; lia]. }
  destruct (fetch_three w tr (sanitize_gives_canonical Hs)) as (ef & E & Hf).
  destruct (get_yt_object w clean_url 3 tr) as [[e|yt] tr1]; cbn [snd] in E; subst tr1.
  { exists ef, []; rewrite app_nil_r; repeat split; try apply Hf.
    left; exists e; split; [reflexivity|simpl; lia]. }
  destruct (YouTube.streams yt) as [e|all].
  { exists ef, []; rewrite app_nil_r; repeat split; try apply Hf.
    left; exists e; split; [reflexivity|simpl; lia]. }
  destruct (select_stream w quality all) as [e|[stream|]].
  { exists ef, []; rewrite app_nil_r; repeat split; try apply Hf.
    left; exists e; split; [reflexivity|simpl; lia]. }
  2:{ exists ef, []; rewrite app_nil_r; repeat split; try apply Hf.
      left; eexists; split; [reflexivity|simpl; lia]. }
  destruct (retrieve_outcome w yt stream (tr ++ ef)) as (ed & E & Hd & Hr).
  exists ef, ed; rewrite E, <- app_assoc; repeat split; try apply Hf; auto.
  destruct Hr as [(e & He & Hdl)|(content & title & video_id & stored & Hh & Hr & Hdl)].
  - left; exists e; split; [exact He|].
    destruct Hdl as [->| ->]; simpl; lia.
  - right; exists content, title, video_id, stored, stream; auto.
Qed.

Lemma download_except_result (w : World) (url : str) (e : exn) (tr : trace) :
  exists msg,
    fst (download_except w url e tr) = inr (error_page msg url)
    /\ (snd (download_except w url e tr) = tr
        \/ exists line, snd (download_except w url e tr) = tr ++ [logger_error line]).
Proof.
  unfold download_except, bind, emit, ret.
  destruct (isinstance w e PytubeError);
    eexists; (split; [reflexivity|]); [left|right; eexists]; reflexivity.
Qed.

Lemma touches_disk_retrieval (ed : trace) :
  forallb touches_disk ed = true -> forallb retrieval_event ed = true.
Proof.
  rewrite !forallb_forall; intros H ev Hev; specialize (H ev Hev).
  destruct ev; try discriminate; reflexivity.
Qed.

(** X10: the download endpoint always answers, and with one of four
    responses: the redirect to the info page, the 400 response, the error
    page with the submitted URL, or a file of type [video/mp4] whose
    [Content-Disposition] header is what the framework stores for the
    attachment line with a name built by the file name policy. *)
Theorem download_response_shape (w : World) (request : Request) (tr : trace) :
  exists r,
    fst (download_video w request tr) = inr r
    /\ (r = redirect "home"
        \/ r = HttpResponseBadRequest (py "No URL provided")
        \/ (exists msg, r = error_page msg (strip (POST_get request "url" "")))
        \/ (exists content title video_id stored,
               stored_header w (disposition (make_filename w title video_id))
               = inr stored
               /\ r = attachment content stored)).
Proof.
  unfold download_video.
  destruct (str_eqb (method request) (py "POST")).
  2:{ eexists; split; [reflexivity|left; reflexivity]. }
  destruct (falsy (strip (POST_get request "url" ""))).
  { eexists; split; [reflexivity|right; left; reflexivity]. }
  set (url := strip (POST_get request "url" "")).
  set (quality := POST_get request "quality" "highest").
  unfold try_except.
  destruct (download_try_outcome w url quality tr) as (ef & ed & _ & _ & _ & Hr).
  destruct (download_try w url quality tr) as [[e|r] tr1]; cbn [fst] in Hr.
  - destruct (download_except_result w url e tr1) as (msg & Hf & _).
    exists (error_page msg url); split; [exact Hf|].
    right; right; left; exists msg; reflexivity.
  - destruct Hr as [(e & He & _)|(content & title & video_id & stored & s & Hh & Hr & _)];
      [discriminate|].
    inversion Hr; subst r.
    eexists; split; [reflexivity|].
    right; right; right; exists content, title, video_id, stored.
    split; [exact Hh|reflexivity].
Qed.

(** X11: what the download endpoint adds to the trace is first the calls
    of the Fetcher (at most three constructions, with a canonical URL, and
    at most three time units of sleep), then file-system calls and at most
    one error line; at most one stream is downloaded per request, and a
    file is served only in a run that downloaded a stream. *)
Theorem download_video_effects (w : World) (request : Request) (tr : trace) :
  exists ef ed,
    snd (download_video w request tr) = tr ++ ef ++ ed
    /\ fetch_only ef
    /\ forallb retrieval_event ed = true
    /\ List.length (downloads ed) <= 1
    /\ (forall content content_type headers,
           fst (download_video w request tr)
           = inr (HttpResponse content content_type headers) ->
           List.length (downloads ed) = 1).
Proof.
  assert (Hnil : forall r,
             (forall c t h, r <> HttpResponse c t h) ->
             exists ef ed,
               snd (inr r : result Response, tr) = tr ++ ef ++ ed
               /\ fetch_only ef
               /\ forallb retrieval_event ed = true
               /\ List.length (downloads ed) <= 1
               /\ (forall content content_type headers,
                      fst (inr r : result Response, tr)
                      = inr (HttpResponse content content_type headers) ->
                      List.length (downloads ed) = 1)).
  { intros r Hr; exists [], []; rewrite app_nil_r.
    repeat split; try apply fetch_only_nil; simpl; auto.
    intros c t h H; inversion H; subst r; destruct (Hr c t h eq_refl). }
  unfold download_video.
  destruct (str_eqb (method request) (py "POST"));
    [|apply Hnil; intros; discriminate].
  destruct (falsy (strip (POST_get request "url" "")));
    [apply Hnil; intros; discriminate|].
  set (url := strip (POST_get request "url" "")).
  set (quality := POST_get request "quality" "highest").
  unfold try_except.
  destruct (download_try_outcome w url quality tr) as (ef & ed & E & Hf & Hd & Hr).
  destruct (download_try w url quality tr) as [[e|r] tr1];
    cbn [fst snd] in Hr, E; subst tr1.
  - destruct Hr as [(e' & _ & Hdl)|(c & t & v & h & s & _ & Hr & _)]; [|discriminate].
    destruct (download_except_result w url e (tr ++ ef ++ ed)) as (msg & Hfst & Hsnd).
    destruct (download_except w url e (tr ++ ef ++ ed)) as [r tr2].
    cbn [fst snd] in Hfst, Hsnd |- *; subst r.
    destruct Hsnd as [->|[line ->]].
    + exists ef, ed; cbn [fst snd]; rewrite <- ?app_assoc.
      repeat split; try apply Hf; auto using touches_disk_retrieval.
      intros c t h H; discriminate.
    + exists ef, (ed ++ [logger_error line]); cbn [fst snd]; rewrite <- ?app_assoc.
      rewrite forallb_app, downloads_app, (touches_disk_retrieval Hd), length_app.
      repeat split; try apply Hf; simpl; try lia.
      intros c t h H; discriminate.
  - destruct Hr as [(e' & He & _)|(c & t & v & h & s & _ & Hr & Hdl)]; [discriminate|].
    exists ef, ed; cbn [fst snd]; rewrite <- ?app_assoc.
    repeat split; try apply Hf; auto using touches_disk_retrieval.
    + rewrite Hdl; simpl; lia.
    + intros; rewrite Hdl; reflexivity.
Qed.

(* ================================================================== *)
(** ** Requests that are not submissions, and invalid URLs *)

(** X12: a request that is not a POST makes no call at all: the info
    endpoint renders the empty form and the download endpoint redirects to
    the info endpoint. *)
Theorem not_a_submission (w : World) (request : Request) (tr : trace) :
  method request <> py "POST" ->
  home w request tr = (inr (render "home.html" []), tr)
  /\ download_video w request tr = (inr (redirect "home"), tr)
  /\ status_code (redirect "home") = 302%Z.
Proof.
  intros Hm; unfold home, download_video.
  destruct (str_eqb_spec (method request) (py "POST")); [contradiction|].
  repeat split.
Qed.

Lemma not_a_submission_witness :
  home down_world (MkRequest (py "GET") []) []
  = (inr (render "home.html" []), [])
  /\ download_video down_world (MkRequest (py "GET") []) []
     = (inr (redirect "home"), [])
  /\ status_code (redirect "home") = 302%Z.
Proof.
  apply (@not_a_submission down_world (MkRequest (py "GET") []) []).
  discriminate.
Defined.

Lemma no_match_rejected (url : str) :
  (forall p, In p patterns -> search p url = None) ->
  sanitize_youtube_url url = inl RegexMatchError_call.
Proof. intros H; apply sanitize_loop_rejected; exact H. Qed.

(** X13: a submitted URL in which no pattern has a match is refused
    before any call is made, but not with the format error: constructing
    that error fails with a [TypeError], which no clause before the
    catch-all recognises (it is no [PytubeError]).  So the info endpoint
    shows "Failed to fetch video information" and the download endpoint
    "Download failed. Please try again later.", each after logging the
    message of the [TypeError]. *)
Theorem invalid_url_refused (w : World) (request : Request) (url : str) (tr : trace) :
  submits request url -> url <> [] ->
  (forall p, In p patterns -> search p url = None) ->
  (unrecognized_by_home w RegexMatchError_call ->
   home w request tr
   = (inr generic_home_page,
      tr ++ [logger_error (py "Error processing URL " ++ url ++ py ": "
                              ++ exn_msg RegexMatchError_call)]))
  /\ (unrecognized_by_download w RegexMatchError_call ->
      download_video w request tr
      = (inr (generic_download_page url),
         tr ++ [logger_error (py "Download failed for " ++ url ++ py ": "
                                 ++ exn_msg RegexMatchError_call)]))
  /\ constructions (snd (home w request tr)) = constructions tr
  /\ constructions (snd (download_video w request tr)) = constructions tr.
Proof.
  intros [Hm Hu] Hne Hno.
  assert (Hs := no_match_rejected Hno).
  assert (Ht : home_try w url tr = (inl RegexMatchError_call, tr))
    by (unfold home_try, bind, lift; rewrite Hs; reflexivity).
  assert (Hd : forall q, download_try w url q tr = (inl RegexMatchError_call, tr))
    by (intros q; unfold download_try, bind, lift; rewrite Hs; reflexivity).
  assert (Hh : home w request tr
               = bind (home_except w url RegexMatchError_call)
                      (fun context => ret (render "home.html" context)) tr).
  { unfold home; rewrite (method_POST Hm), Hu, (falsy_nonempty Hne).
    unfold bind, try_except; rewrite Ht; reflexivity. }
  assert (Hv : download_video w request tr
               = download_except w url RegexMatchError_call tr).
  { unfold download_video; rewrite (method_POST Hm), Hu, (falsy_nonempty Hne).
    unfold try_except; rewrite Hd; reflexivity. }
  rewrite Hh, Hv; unfold home_except, download_except, bind, emit, ret.
  split; [|split; [|split]].
  - intros (A & B & C); rewrite A, B, C; reflexivity.
  - intros A; unfold unrecognized_by_download in A; rewrite A; reflexivity.
  - destruct (isinstance w RegexMatchError_call PytubeError); [reflexivity|].
    destruct (isinstance w RegexMatchError_call AgeRestrictedError); [reflexivity|].
    destruct (isinstance w RegexMatchError_call RegexMatchError); cbn [snd];
      [reflexivity|].
    rewrite constructions_app; unfold constructions at 2; simpl; lia.
  - destruct (isinstance w RegexMatchError_call PytubeError); cbn [snd];
      [reflexivity|].
    rewrite constructions_app; unfold constructions at 2; simpl; lia.
Qed.

Lemma invalid_url_refused_witness :
  home good_world (post [("url"%string, "https://vimeo.com/12345"%string)]) []
  = (inr generic_home_page,
     [logger_error (py "Error processing URL " ++ py "https://vimeo.com/12345"
                       ++ py ": " ++ exn_msg RegexMatchError_call)]).
Proof.
  refine (proj1 (@invalid_url_refused good_world
                   (post [("url"%string, "https://vimeo.com/12345"%string)])
                   (py "https://vimeo.com/12345") [] _ _ _) _).
  - split; reflexivity.
  - discriminate.
  - intros p Hp; unfold patterns in Hp; simpl in Hp.
    destruct Hp as [<-|[<-|[<-|[<-|[]]]]]; vm_compute; reflexivity.
  - repeat split; reflexivity.
Defined.

(** The pages for the sample URL that is no YouTube URL. *)
Example invalid_url_pages :
  fst (home good_world (post [("url"%string, "https://vimeo.com/12345"%string)]) [])
  = inr (home_error_page (py "Failed to fetch video information"))
  /\ fst (download_video good_world
            (post [("url"%string, "https://vimeo.com/12345"%string)]) [])
     = inr (error_page (py "Download failed. Please try again later.")
                       (py "https://vimeo.com/12345")).
Proof. vm_compute. split; reflexivity. Qed.

(* ================================================================== *)
(** ** The remote service is down *)

Lemma fetch_three_exhausted (w : World) (url : str) (tr : trace) :
  always_fails w url ->
  exists ext,
    get_yt_object w url 3 tr = (inl could_not_initialize, tr ++ ext)
    /\ constructions ext = 3 /\ waits ext = [1; 2]%Z /\ downloads ext = [].
Proof.
  intros Hfail; unfold get_yt_object.
  destruct (retry_loop_all_fail 3 Hfail 3 0 tr) as (ext & E & C & _ & W).
  change (List.map Z.of_nat (seq 0 3)) with (range 3) in E.
  destruct (retry_loop_events w url 3 (range 3) tr) as (ext' & E' & _ & _ & _ & D).
  rewrite E in E'; cbn [snd] in E'; apply app_inv_head in E'; subst ext'.
  exists ext; repeat split; auto.
Qed.

(** X14: when the construction of the handle fails on every attempt,
    both endpoints show the "could not initialize" message of the Fetcher
    after three attempts and waits of 1 and 2 time units, and nothing is
    downloaded. *)
Theorem service_down (w : World) (request : Request) (url clean_url : str)
        (tr : trace) :
  submits request url -> url <> [] ->
  sanitize_youtube_url url = inr clean_url ->
  always_fails w clean_url ->
  exists ext,
    home w request tr
    = (inr (home_error_page (exn_msg could_not_initialize)), tr ++ ext)
    /\ download_video w request tr
       = (inr (error_page (exn_msg could_not_initialize) url), tr ++ ext)
    /\ constructions ext = 3 /\ waits ext = [1; 2]%Z /\ downloads ext = [].
Proof.
  intros [Hm Hu] Hne Hs Hfail.
  destruct (fetch_three_exhausted tr Hfail) as (ext & E & C & W & D).
  exists ext.
  assert (Hself : isinstance w could_not_initialize PytubeError = true)
    by apply isinstance_same_class.
  repeat split; auto.
  - unfold home; rewrite (method_POST Hm), Hu, (falsy_nonempty Hne).
    unfold bind at 1, try_except.
    assert (Ht : home_try w url tr = (inl could_not_initialize, tr ++ ext)).
    { unfold home_try.
      rewrite (bind_returns _ (lift_returns tr Hs)).
      exact (bind_raises _ E). }
    rewrite Ht; unfold home_except; rewrite Hself; reflexivity.
  - unfold download_video; rewrite (method_POST Hm), Hu, (falsy_nonempty Hne).
    unfold try_except.
    assert (Ht : download_try w url (POST_get request "quality" "highest") tr
                 = (inl could_not_initialize, tr ++ ext)).
    { unfold download_try.
      rewrite (bind_returns _ (lift_returns tr Hs)).
      exact (bind_raises _ E). }
    rewrite Ht; unfold download_except; rewrite Hself; reflexivity.
Qed.

Lemma service_down_witness :
  exists ext,
    home down_world (post [("url"%string, "youtu.be/abc12345678"%string)]) []
    = (inr (home_error_page (exn_msg could_not_initialize)), [] ++ ext)
    /\ download_video down_world
         (post [("url"%string, "youtu.be/abc12345678"%string)]) []
       = (inr (error_page (exn_msg could_not_initialize)
                          (py "youtu.be/abc12345678")), [] ++ ext)
    /\ constructions ext = 3 /\ waits ext = [1; 2]%Z /\ downloads ext = [].
Proof.
  apply (@service_down down_world
           (post [("url"%string, "youtu.be/abc12345678"%string)])
           (py "youtu.be/abc12345678")
           (py "https://www.youtube.com/watch?v=abc12345678") []).
  - split; reflexivity.
  - discriminate.
  - vm_compute; reflexivity.
  - intros tr; exists network_down; reflexivity.
Defined.

(* ================================================================== *)
(** ** Serving the file *)

(** The retrieval when the directory is there, the title and identifier
    are read and the download went through. *)
Lemma retrieve_after_download (w : World) (yt : YouTube.t) (stream : Stream)
      (tr1 : trace) (title video_id : str) :
  let dir := path_join (MEDIA_ROOT w) (py "downloads") in
  let name := make_filename w title video_id in
  let t3 := tr1 ++ [os_makedirs dir; stream_download stream dir name 30] in
  makedirs w tr1 dir = inr tt ->
  YouTube.title yt = inr title ->
  YouTube.video_id yt = inr video_id ->
  download w (tr1 ++ [os_makedirs dir]) stream dir name 30 = inr tt ->
  retrieve w yt stream tr1
  = if path_exists w t3 (path_join dir name)
    then match file_contents w (t3 ++ [os_path_exists (path_join dir name)])
                             (path_join dir name) with
         | inr content =>
             match stored_header w (disposition name) with
             | inr stored =>
                 (inr (attachment content stored),
                  t3 ++ [os_path_exists (path_join dir name);
                         read_file (path_join dir name)])
             | inl e =>
                 (inl e, t3 ++ [os_path_exists (path_join dir name);
                                read_file (path_join dir name)])
             end
         | inl e =>
             (inl e, t3 ++ [os_path_exists (path_join dir name);
                            read_file (path_join dir name)])
         end
    else (inl file_not_found, t3 ++ [os_path_exists (path_join dir name)]).
Proof.
  intros dir name t3 Hmk Ht Hv Hdl; unfold retrieve.
  fold dir.
  assert (E1 : call (os_makedirs dir) (fun tr => makedirs w tr dir) tr1
               = (inr tt, tr1 ++ [os_makedirs dir]))
    by (unfold call; rewrite Hmk; reflexivity).
  rewrite (bind_returns _ E1).
  rewrite (bind_returns _ (lift_returns _ Ht)).
  rewrite (bind_returns _ (lift_returns _ Hv)).
  fold name.
  assert (E2 : call (stream_download stream dir name 30)
                    (fun tr => download w tr stream dir name 30%Z)
                    (tr1 ++ [os_makedirs dir])
               = (inr tt, t3)).
  { unfold call, t3; rewrite Hdl, <- app_assoc; reflexivity. }
  rewrite (bind_returns _ E2).
  unfold bind, call, lift, ret, raise, attachment.
  destruct (path_exists w t3 (path_join dir name)).
  - destruct (file_contents w _ (path_join dir name));
      [|destruct (stored_header w (disposition name))];
      rewrite <- app_assoc; reflexivity.
  - reflexivity.
Qed.

(** A value of latin-1 characters without a line break is stored as it
    is. *)
Lemma stored_header_plain (w : World) (value : str) :
  plain_header value = true -> stored_header w value = inr value.
Proof.
  unfold plain_header, stored_header; intros H.
  apply andb_true_iff in H; destruct H as [Hl Hn].
  apply negb_true_iff in Hn; rewrite Hn, Hl; reflexivity.
Qed.

(** X15: when the Normalizer, the Fetcher, the selection, the directory,
    the download, the read of the file and the setting of the header all
    succeed, the response is the content of the file
    [<downloads>/<file name>], of type [video/mp4], with status 200 and
    with the [Content-Disposition] header the framework stores for
    [attachment; filename=<file name in quotes>]: that line itself when it
    has latin-1 characters only and no line break.  The selected stream is
    downloaded into the downloads directory with a timeout of 30. *)
Theorem download_served (w : World) (request : Request) (url clean_url : str)
        (tr tr1 : trace) (yt : YouTube.t) (all : StreamQuery) (stream : Stream)
        (title video_id : str) (content : list N) (stored : str) :
  let dir := path_join (MEDIA_ROOT w) (py "downloads") in
  let name := make_filename w title video_id in
  let t3 := tr1 ++ [os_makedirs dir; stream_download stream dir name 30] in
  submits request url -> url <> [] ->
  sanitize_youtube_url url = inr clean_url ->
  get_yt_object w clean_url 3 tr = (inr yt, tr1) ->
  YouTube.streams yt = inr all ->
  select_stream w (POST_get request "quality" "highest") all = inr (Some stream) ->
  makedirs w tr1 dir = inr tt ->
  YouTube.title yt = inr title ->
  YouTube.video_id yt = inr video_id ->
  download w (tr1 ++ [os_makedirs dir]) stream dir name 30 = inr tt ->
  path_exists w t3 (path_join dir name) = true ->
  file_contents w (t3 ++ [os_path_exists (path_join dir name)]) (path_join dir name)
  = inr content ->
  stored_header w (disposition name) = inr stored ->
  download_video w request tr
  = (inr (attachment content stored),
     t3 ++ [os_path_exists (path_join dir name); read_file (path_join dir name)])
  /\ status_code (attachment content stored) = 200%Z
  /\ (plain_header (disposition name) = true -> stored = disposition name).
Proof.
  intros dir name t3 [Hm Hu] Hne Hs Hy Hall Hsel Hmk Ht Hv Hdl Hex Hrd Hh.
  split; [|split; [reflexivity|]].
  - unfold download_video; rewrite (method_POST Hm), Hu, (falsy_nonempty Hne).
    unfold try_except.
    rewrite (download_try_selected Hs Hy Hall Hsel).
    rewrite (retrieve_after_download Hmk Ht Hv Hdl).
    fold dir name t3; rewrite Hex, Hrd, Hh; reflexivity.
  - intros Hp; rewrite (stored_header_plain w Hp) in Hh; congruence.
Qed.

Lemma download_served_witness :
  download_video good_world
    (post [("url"%string, "youtu.be/abc12345678"%string);
           ("quality"%string, "480p"%string)]) []
  = (inr (attachment [0; 0; 0; 24]%N
                     (disposition (py "My Video_abc12345678.mp4"))),
     [YouTube_init (py "https://www.youtube.com/watch?v=abc12345678");
      bypass_age_gate; vid_info;
      os_makedirs (py "/srv/media/downloads");
      stream_download stream_480p (py "/srv/media/downloads")
                      (py "My Video_abc12345678.mp4") 30;
      os_path_exists (py "/srv/media/downloads/My Video_abc12345678.mp4");
      read_file (py "/srv/media/downloads/My Video_abc12345678.mp4")]).
Proof.
  refine (proj1 (@download_served good_world
           (post [("url"%string, "youtu.be/abc12345678"%string);
                  ("quality"%string, "480p"%string)])
           (py "youtu.be/abc12345678")
           (py "https://www.youtube.com/watch?v=abc12345678")
           []
           [YouTube_init (py "https://www.youtube.com/watch?v=abc12345678");
            bypass_age_gate; vid_info]
           good_handle [stream_360p; stream_480p; stream_720p] stream_480p
           (py "My Video! @#$%") (py "abc12345678") [0; 0; 0; 24]%N
           (disposition (py "My Video_abc12345678.mp4"))
           _ _ _ _ _ _ _ _ _ _ _ _ _)).
  - split; reflexivity.
  - discriminate.
  - vm_compute; reflexivity.
  - vm_compute; reflexivity.
  - reflexivity.
  - vm_compute; reflexivity.
  - reflexivity.
  - reflexivity.
  - reflexivity.
  - reflexivity.
  - vm_compute; reflexivity.
  - reflexivity.
  - vm_compute; reflexivity.
Defined.

(** X16: when the download went through but the file is not where it is
    expected, the handler raises [FileNotFoundError]; unless that class is a
    [PytubeError] the user sees the generic failure page, and the words
    "Downloaded file not found" go to the log only. *)
Theorem download_file_missing (w : World) (request : Request) (url clean_url : str)
        (tr tr1 : trace) (yt : YouTube.t) (all : StreamQuery) (stream : Stream)
        (title video_id : str) :
  let dir := path_join (MEDIA_ROOT w) (py "downloads") in
  let name := make_filename w title video_id in
  let t3 := tr1 ++ [os_makedirs dir; stream_download stream dir name 30] in
  submits request url -> url <> [] ->
  sanitize_youtube_url url = inr clean_url ->
  get_yt_object w clean_url 3 tr = (inr yt, tr1) ->
  YouTube.streams yt = inr all ->
  select_stream w (POST_get request "quality" "highest") all = inr (Some stream) ->
  makedirs w tr1 dir = inr tt ->
  YouTube.title yt = inr title ->
  YouTube.video_id yt = inr video_id ->
  download w (tr1 ++ [os_makedirs dir]) stream dir name 30 = inr tt ->
  path_exists w t3 (path_join dir name) = false ->
  isinstance w file_not_found PytubeError = false ->
  download_video w request tr
  = (inr (generic_download_page url),
     t3 ++ [os_path_exists (path_join dir name);
            logger_error (py "Download failed for " ++ url ++ py ": "
                             ++ py "Downloaded file not found")]).
Proof.
  intros dir name t3 [Hm Hu] Hne Hs Hy Hall Hsel Hmk Ht Hv Hdl Hex Hcls.
  unfold download_video; rewrite (method_POST Hm), Hu, (falsy_nonempty Hne).
  unfold try_except.
  rewrite (download_try_selected Hs Hy Hall Hsel).
  rewrite (retrieve_after_download Hmk Ht Hv Hdl).
  fold dir name t3; rewrite Hex.
  unfold download_except; rewrite Hcls.
  unfold bind, emit, ret; rewrite <- app_assoc; reflexivity.
Qed.

Lemma download_file_missing_witness :
  download_video lost_file_world
    (post [("url"%string, "youtu.be/abc12345678"%string)]) []
  = (inr (generic_download_page (py "youtu.be/abc12345678")),
     [YouTube_init (py "https://www.youtube.com/watch?v=abc12345678");
      bypass_age_gate; vid_info;
      os_makedirs (py "/srv/media/downloads");
      stream_download stream_720p (py "/srv/media/downloads")
                      (py "My Video_abc12345678.mp4") 30;
      os_path_exists (py "/srv/media/downloads/My Video_abc12345678.mp4");
      logger_error
        (py "Download failed for youtu.be/abc12345678: Downloaded file not found")]).
Proof.
  refine (@download_file_missing lost_file_world
            (post [("url"%string, "youtu.be/abc12345678"%string)])
            (py "youtu.be/abc12345678")
            (py "https://www.youtube.com/watch?v=abc12345678")
            []
            [YouTube_init (py "https://www.youtube.com/watch?v=abc12345678");
             bypass_age_gate; vid_info]
            good_handle [stream_360p; stream_480p; stream_720p] stream_720p
            (py "My Video! @#$%") (py "abc12345678")
            _ _ _ _ _ _ _ _ _ _ _ _).
  - split; reflexivity.
  - discriminate.
  - vm_compute; reflexivity.
  - vm_compute; reflexivity.
  - reflexivity.
  - vm_compute; reflexivity.
  - reflexivity.
  - reflexivity.
  - reflexivity.
  - reflexivity.
  - reflexivity.
  - reflexivity.
Defined.

(* ================================================================== *)
(** ** More on file names *)

Lemma dropwhile_head (f : char -> bool) (s : str) (c : char) (t : str) :
  dropwhile f s = c :: t -> f c = false.
Proof.
  induction s as [|x s IH]; simpl; [discriminate|].
  destruct (f x) eqn:E; [exact IH|].
  intros H; inversion H; subst; exact E.
Qed.

Lemma dropwhile_suffix (f : char -> bool) (s : str) :
  exists p, s = p ++ dropwhile f s.
Proof.
  induction s as [|x s [p IH]]; [exists []; reflexivity|]; simpl.
  destruct (f x); [exists (x :: p); simpl; congruence|exists []; reflexivity].
Qed.

Lemma rstrip_prefix (s : str) : exists t, s = rstrip s ++ t.
Proof.
  unfold rstrip; destruct (dropwhile_suffix isspace (rev s)) as [p Hp].
  exists (rev p); rewrite <- rev_app_distr, <- Hp, rev_involutive; reflexivity.
Qed.

Lemma last_char_snoc (s : str) (c : char) : last_char (s ++ [c]) = Some c.
Proof. unfold last_char; rewrite map_app; apply last_last. Qed.

Lemma rstrip_last (s : str) (c : char) :
  last_char (rstrip s) = Some c -> isspace c = false.
Proof.
  unfold rstrip; destruct (dropwhile isspace (rev s)) as [|x t] eqn:E.
  - discriminate.
  - simpl; rewrite last_char_snoc; intros H; inversion H; subst.
    exact (dropwhile_head E).
Qed.

Lemma rstrip_fixed (s : str) :
  (forall c, last_char s = Some c -> isspace c = false) -> rstrip s = s.
Proof.
  destruct s as [|x s] using rev_ind; [reflexivity|]; intros H.
  rewrite rstrip_snoc, (H x (last_char_snoc s x)); reflexivity.
Qed.

Lemma safe_title_kept (w : World) (title : str) (c : char) :
  In c (safe_title w title) -> keep_char w c = true.
Proof.
  unfold safe_title; intros Hc.
  destruct (rstrip_prefix (List.filter (keep_char w) title)) as [t Ht].
  assert (Hin : In c (List.filter (keep_char w) title))
    by (rewrite Ht; apply in_or_app; left; exact Hc).
  apply filter_In in Hin; tauto.
Qed.

Lemma filter_kept (f : char -> bool) (s : str) :
  (forall c, In c s -> f c = true) -> List.filter f s = s.
Proof.
  induction s as [|x s IH]; [reflexivity|]; intros H; simpl.
  rewrite (H x (or_introl eq_refl)), IH; [reflexivity|].
  intros c Hc; apply H; right; exact Hc.
Qed.

(** X17: the title part of a file name contains only alphanumeric
    characters, spaces, hyphens and underscores (so no solidus, reverse
    solidus, quotation mark or full stop), does not end with white space,
    and cleaning it again changes nothing. *)
Theorem safe_title_safe (w : World) (title : str) :
  (forall c, In c (safe_title w title) -> keep_char w c = true)
  /\ (forall c, last_char (safe_title w title) = Some c -> isspace c = false)
  /\ ~ In slash (safe_title w title)
  /\ ~ In backslash (safe_title w title)
  /\ ~ In quote (safe_title w title)
  /\ ~ In dot (safe_title w title)
  /\ safe_title w (safe_title w title) = safe_title w title.
Proof.
  assert (Hk := @safe_title_kept w title).
  assert (Hl : forall c, last_char (safe_title w title) = Some c -> isspace c = false)
    by (intros c; unfold safe_title; apply rstrip_last).
  repeat split; auto;
    try (intros Hin; apply Hk in Hin; discriminate).
  unfold safe_title at 1.
  rewrite (filter_kept Hk); exact (rstrip_fixed Hl).
Qed.

Lemma path_join_relative (a b : str) :
  (forall t, b <> slash :: t) ->
  exists sep, (sep = [] \/ sep = [slash]) /\ path_join a b = a ++ sep ++ b.
Proof.
  intros Hb.
  assert (Hrel : path_join a b
                 = match rev a with
                   | [] => b
                   | 47%N :: _ => a ++ b
                   | _ => a ++ py "/" ++ b
                   end).
  { unfold path_join; destruct b as [|c t]; [reflexivity|].
    destruct c as [|p]; [reflexivity|].
    do 7 (try (destruct p as [p|p|]; try reflexivity)).
    destruct (Hb t eq_refl). }
  rewrite Hrel.
  destruct (rev a) as [|c r] eqn:E.
  - exists []; split; [left; reflexivity|].
    apply (f_equal (@rev char)) in E; rewrite rev_involutive in E; subst a.
    reflexivity.
  - assert (Hsep : (a ++ b = a ++ [] ++ b) /\ (a ++ py "/" ++ b = a ++ [slash] ++ b))
      by (split; reflexivity).
    destruct c as [|p]; [exists [slash]; split; [right; reflexivity|reflexivity]|].
    do 7 (try (destruct p as [p|p|];
               try (exists [slash]; split; [right; reflexivity|reflexivity]))).
    exists []; split; [left; reflexivity|reflexivity].
Qed.

Lemma make_filename_head (w : World) (title video_id t : str) :
  make_filename w title video_id <> slash :: t.
Proof.
  unfold make_filename; intros H.
  destruct (safe_title w title) as [|c s] eqn:E.
  - discriminate.
  - simpl in H; inversion H; subst c.
    assert (Hk : keep_char w slash = true)
      by (apply (@safe_title_kept w title); rewrite E; left; reflexivity).
    discriminate.
Qed.

Lemma idchars_exclude (s : str) (c : char) :
  forallb idchar s = true -> idchar c = false -> ~ In c s.
Proof.
  intros H Hc Hin; rewrite forallb_forall in H; rewrite (H c Hin) in Hc.
  discriminate.
Qed.

Lemma in_make_filename (w : World) (title video_id : str) (c : char) :
  In c (make_filename w title video_id) ->
  In c (safe_title w title) \/ c = 95%N \/ In c video_id \/ In c (py ".mp4").
Proof.
  unfold make_filename; intros H.
  apply in_app_or in H as [H|H]; [left; exact H|].
  apply in_app_or in H as [H|H].
  - right; left; simpl in H; destruct H as [H|[]]; congruence.
  - apply in_app_or in H as [H|H]; [right; right; left|right; right; right]; exact H.
Qed.

(** X18: the file is written directly inside the downloads directory:
    the path is the directory, a separator if the directory does not end
    with one, and the file name, whatever the title; and when the video
    identifier is made of identifier characters the file name contains no
    solidus and no quotation mark, so it names no other directory and
    cannot end the quoted file name of the [Content-Disposition] header. *)
Theorem filename_stays_in_directory (w : World) (dir title video_id : str) :
  forallb idchar video_id = true ->
  (exists sep, (sep = [] \/ sep = [slash])
               /\ path_join dir (make_filename w title video_id)
                  = dir ++ sep ++ make_filename w title video_id)
  /\ ~ In slash (make_filename w title video_id)
  /\ ~ In quote (make_filename w title video_id).
Proof.
  intros Hid; split; [apply path_join_relative, make_filename_head|].
  assert (Hs : ~ In slash (safe_title w title))
    by (intros Hin; apply safe_title_kept in Hin; discriminate).
  assert (Hq : ~ In quote (safe_title w title))
    by (intros Hin; apply safe_title_kept in Hin; discriminate).
  split; intros Hin; apply in_make_filename in Hin as [Hin|[Hin|[Hin|Hin]]];
    try contradiction; try discriminate.
  - exact (idchars_exclude Hid (c := slash) eq_refl Hin).
  - simpl in Hin; destruct Hin as [Hin|[Hin|[Hin|[Hin|[]]]]]; discriminate.
  - exact (idchars_exclude Hid (c := quote) eq_refl Hin).
  - simpl in Hin; destruct Hin as [Hin|[Hin|[Hin|[Hin|[]]]]]; discriminate.
Qed.

Lemma filename_stays_in_directory_witness :
  (exists sep, (sep = [] \/ sep = [slash])
               /\ path_join (py "/srv/media/downloads")
                            (make_filename good_world (py "../../etc/passwd")
                                           (py "abc12345678"))
                  = py "/srv/media/downloads" ++ sep
                    ++ make_filename good_world (py "../../etc/passwd")
                                     (py "abc12345678"))
  /\ ~ In slash (make_filename good_world (py "../../etc/passwd") (py "abc12345678"))
  /\ ~ In quote (make_filename good_world (py "../../etc/passwd") (py "abc12345678")).
Proof.
  apply (@filename_stays_in_directory good_world (py "/srv/media/downloads")
                                      (py "../../etc/passwd") (py "abc12345678")).
  reflexivity.
Defined.

(* ================================================================== *)
(** ** White space around the URL *)

Lemma dropwhile_app_all (f : char -> bool) (a s : str) :
  forallb f a = true -> dropwhile f (a ++ s) = dropwhile f s.
Proof.
  induction a as [|c a IH]; [reflexivity|]; simpl; intros H.
  apply andb_true_iff in H as [Hc Ha]; rewrite Hc; exact (IH Ha).
Qed.

Lemma dropwhile_app_some (f : char -> bool) (s b : str) :
  dropwhile f s <> [] -> dropwhile f (s ++ b) = dropwhile f s ++ b.
Proof.
  induction s as [|c s IH]; simpl; [congruence|].
  destruct (f c); [exact IH|reflexivity].
Qed.

Lemma dropwhile_nil_all (f : char -> bool) (s : str) :
  dropwhile f s = [] -> forallb f s = true.
Proof.
  induction s as [|c s IH]; [reflexivity|]; simpl.
  destruct (f c); [exact IH|discriminate].
Qed.

Lemma rstrip_app_all (s b : str) :
  forallb isspace b = true -> rstrip (s ++ b) = rstrip s.
Proof.
  intros Hb; unfold rstrip; rewrite rev_app_distr, dropwhile_app_all; [reflexivity|].
  rewrite forallb_forall in *; intros c Hc; apply Hb, in_rev; exact Hc.
Qed.

Lemma strip_padding (a v b : str) :
  forallb isspace a = true -> forallb isspace b = true ->
  strip (a ++ v ++ b) = strip v.
Proof.
  intros Ha Hb; unfold strip, lstrip.
  rewrite (dropwhile_app_all _ Ha).
  destruct (dropwhile isspace v) as [|c t] eqn:E.
  - apply dropwhile_nil_all in E.
    rewrite (dropwhile_app_all _ E), (dropwhile_all Hb); reflexivity.
  - rewrite dropwhile_app_some by congruence.
    rewrite E; apply (rstrip_app_all _ Hb).
Qed.

(** X19: white space before and after the submitted URL is ignored: two
    submissions that differ only in white space around the [url] field get
    the same response and cause the same calls, on both endpoints; and
    stripping twice is stripping once. *)
Theorem url_padding_ignored (w : World) (r1 r2 : Request) (a b : str) (tr : trace) :
  method r1 = method r2 ->
  POST_get r1 "quality" "highest" = POST_get r2 "quality" "highest" ->
  POST_get r1 "url" "" = a ++ POST_get r2 "url" "" ++ b ->
  forallb isspace a = true -> forallb isspace b = true ->
  home w r1 tr = home w r2 tr
  /\ download_video w r1 tr = download_video w r2 tr
  /\ strip (strip (POST_get r1 "url" "")) = strip (POST_get r1 "url" "").
Proof.
  intros Hm Hq Hu Ha Hb.
  assert (Hs : strip (POST_get r1 "url" "") = strip (POST_get r2 "url" ""))
    by (rewrite Hu; exact (strip_padding _ Ha Hb)).
  repeat split.
  - unfold home; rewrite Hm, Hs; reflexivity.
  - unfold download_video; rewrite Hm, Hs, Hq; reflexivity.
  - unfold strip at 1.
    assert (Hl : forall c, last_char (strip (POST_get r1 "url" "")) = Some c ->
                           isspace c = false)
      by (intros c; unfold strip; apply rstrip_last).
    unfold lstrip.
    destruct (strip (POST_get r1 "url" "")) as [|c t] eqn:E; [reflexivity|].
    assert (Hc : isspace c = false).
    { unfold strip, lstrip in E.
      destruct (dropwhile isspace (POST_get r1 "url" "")) as [|x s] eqn:D;
        [discriminate|].
      rewrite rstrip_cons in E.
      assert (Hx := dropwhile_head D).
      destruct (rstrip s); [rewrite Hx in E|]; inversion E; subst; exact Hx. }
    simpl; rewrite Hc; exact (rstrip_fixed Hl).
Qed.

Lemma url_padding_ignored_witness :
  home good_world (post [("url"%string, "  youtu.be/abc12345678 "%string)]) []
  = home good_world (post [("url"%string, "youtu.be/abc12345678"%string)]) []
  /\ download_video good_world
       (post [("url"%string, "  youtu.be/abc12345678 "%string)]) []
     = download_video good_world
         (post [("url"%string, "youtu.be/abc12345678"%string)]) []
  /\ strip (strip (POST_get (post [("url"%string, "  youtu.be/abc12345678 "%string)])
                            "url" ""))
     = strip (POST_get (post [("url"%string, "  youtu.be/abc12345678 "%string)])
                       "url" "").
Proof.
  apply (@url_padding_ignored good_world
           (post [("url"%string, "  youtu.be/abc12345678 "%string)])
           (post [("url"%string, "youtu.be/abc12345678"%string)])
           (py "  ") (py " ") []); reflexivity.
Defined.

(* ================================================================== *)
(** ** Inputs the Normalizer cannot accept *)

Lemma shapes_long (l : string) : In l shapes -> 9 <= List.length (py l).
Proof.
  unfold shapes; simpl; intros [<-|[<-|[<-|[<-|[]]]]]; simpl; lia.
Qed.

(** X20: an accepted input has at least 20 characters and contains a
    full stop: on every shorter input, and on every input without a full
    stop, the Normalizer fails, with the [TypeError] of the call that was to
    build the format error. *)
Theorem sanitize_short_or_dotless (url : str) :
  List.length url < 20 \/ no_dot url = true ->
  sanitize_youtube_url url = inl RegexMatchError_call.
Proof.
  intros H.
  destruct (sanitize_loop_outcome url shapes_nonempty)
    as [[Hr _]|(l & a & id & b & Hl & -> & [Hlen _] & _)];
    [rewrite <- patterns_shapes in Hr; exact Hr|exfalso].
  destruct H as [H|H].
  - rewrite !length_app, Hlen in H. assert (Hn := shapes_long Hl). lia.
  - unfold no_dot in H; rewrite !forallb_app in H.
    apply andb_true_iff in H as [_ H]; apply andb_true_iff in H as [H _].
    assert (Hd : In dot (py l)).
    { unfold shapes in Hl; simpl in Hl.
      destruct Hl as [<-|[<-|[<-|[<-|[]]]]]; simpl; tauto. }
    rewrite forallb_forall in H; specialize (H dot Hd); discriminate.
Qed.

Lemma sanitize_short_or_dotless_witness :
  sanitize_youtube_url (py "youtu.be/abc1234567") = inl RegexMatchError_call.
Proof.
  apply (@sanitize_short_or_dotless (py "youtu.be/abc1234567")).
  left; simpl; lia.
Defined.

(* ================================================================== *)
(** ** Negative durations *)

(** X21: on a negative seconds count the formatter borrows whole days:
    the result is the negative day count, ["day"] or ["days"], and the
    [H:MM:SS] of what is left of the day, so -1 gives
    ["-1 day, 23:59:59"]; below minus 999999999 days the call raises
    [OverflowError]. *)
Theorem format_duration_negative (n : Z) :
  (n < 0)%Z ->
  ((min_seconds <= n)%Z ->
     format_duration n = inr (day_prefix (n / 86400) ++ hms (n mod 86400))
     /\ parse_hms (hms (n mod 86400)) = Some (n mod 86400)%Z
     /\ (n / 86400 < 0)%Z)
  /\ ((n < min_seconds)%Z ->
        exists e, format_duration n = inl e /\ exn_class e = OverflowError)
  /\ format_duration (-1) = inr (py "-1 day, 23:59:59").
Proof.
  intros Hn; unfold min_seconds; split; [|split; [|reflexivity]].
  - intros Hmin.
    assert (-999999999 <= n / 86400 < 0)%Z.
    { split; [apply Z.div_le_lower_bound; lia|apply Z.div_lt_upper_bound; lia]. }
    split; [|split; [apply parse_hms_hms, Z.mod_pos_bound; lia|lia]].
    unfold format_duration; rewrite timedelta_accepts by lia.
    unfold timedelta_str.
    destruct (Z.eqb_spec (n / 86400) 0); [lia|reflexivity].
  - intros Hmin; unfold format_duration.
    assert (n / 86400 < -999999999)%Z by (apply Z.div_lt_upper_bound; lia).
    destruct (@timedelta_overflows n) as (e & -> & He); [lia|].
    exists e; split; [reflexivity|exact He].
Qed.

Lemma format_duration_negative_witness :
  format_duration (-90000)
  = inr (day_prefix (-90000 / 86400) ++ hms (-90000 mod 86400))
  /\ parse_hms (hms (-90000 mod 86400)) = Some (-90000 mod 86400)%Z
  /\ (-90000 / 86400 < 0)%Z.
Proof.
  apply (@format_duration_negative (-90000)%Z); unfold min_seconds; lia.
Defined.

(* ================================================================== *)
(** ** The view count *)

Lemma digits_fuel_not_comma (fuel : nat) :
  forall (n : N) (acc : str),
    forallb not_comma acc = true ->
    forallb not_comma (digits_fuel fuel n acc) = true.
Proof.
  induction fuel as [|f IH]; intros n acc Hacc; [exact Hacc|].
  cbn [digits_fuel].
  assert (Hd : forallb not_comma ((48 + n mod 10)%N :: acc) = true).
  { cbn [forallb]; apply andb_true_iff; split; [|exact Hacc].
    unfold not_comma, char_eqb; apply negb_true_iff, N.eqb_neq.
    generalize (n mod 10)%N; intros x; lia. }
  destruct (n <? 10)%N; [exact Hd|exact (IH _ _ Hd)].
Qed.

Lemma commas_rev_filter (ds : str) :
  List.filter not_comma (commas_rev ds) = List.filter not_comma ds.
Proof.
  assert (H : forall n ds, List.length ds <= n ->
                           List.filter not_comma (commas_rev ds)
                           = List.filter not_comma ds).
  { induction n as [|n IH]; intros l Hl.
    - destruct l; [reflexivity|simpl in Hl; lia].
    - destruct l as [|a [|b [|c [|d rest]]]]; try reflexivity.
      change (commas_rev (a :: b :: c :: d :: rest))
        with (([a; b; c] ++ [44%N]) ++ commas_rev (d :: rest)).
      change (a :: b :: c :: d :: rest) with ([a; b; c] ++ d :: rest).
      rewrite !filter_app, (IH (d :: rest)) by (simpl in Hl |- *; lia).
      change (List.filter not_comma [44%N]) with (@nil char).
      rewrite app_nil_r; reflexivity. }
  exact (H (List.length ds) ds (le_n _)).
Qed.

Lemma filter_rev_str (f : char -> bool) (s : str) :
  List.filter f (rev s) = rev (List.filter f s).
Proof.
  induction s as [|c s IH]; [reflexivity|]; simpl.
  rewrite filter_app, IH; simpl; destruct (f c); [reflexivity|apply app_nil_r].
Qed.

(** X22: the view count shown on the info page is the decimal form of
    the count with commas put in: taking the commas out gives [str(n)] back,
    for every integer, negative ones included. *)
Theorem thousands_reads_back (n : Z) :
  List.filter not_comma (thousands n) = str_of_int n.
Proof.
  unfold thousands, str_of_int.
  assert (Hd : List.filter not_comma (digits (Z.abs_N n)) = digits (Z.abs_N n)).
  { apply filter_kept; apply forallb_forall.
    unfold digits; apply digits_fuel_not_comma; reflexivity. }
  rewrite filter_app, filter_rev_str, commas_rev_filter, filter_rev_str,
    rev_involutive, Hd.
  destruct (n <? 0)%Z; reflexivity.
Qed.

(* ================================================================== *)
(** ** The info page of a video *)

(** X23: when the Normalizer and the Fetcher succeed and every attribute
    of the handle can be read, the info page shows the title, the duration
    as [H:MM:SS] (for a video shorter than a day), the view count with
    commas, the author, the thumbnail, the streams as the library's filter
    returns them, the identifier, the canonical URL and the success mark,
    and no call is made beyond those of the Fetcher. *)
Theorem home_shows_video (w : World) (request : Request) (url clean_url : str)
        (tr tr1 : trace) (yt : YouTube.t) (all streams : StreamQuery)
        (title author thumbnail video_id : str) (length views : Z) :
  submits request url -> url <> [] ->
  sanitize_youtube_url url = inr clean_url ->
  get_yt_object w clean_url 3 tr = (inr yt, tr1) ->
  YouTube.streams yt = inr all ->
  progressive_mp4_desc w all = inr streams ->
  YouTube.title yt = inr title ->
  YouTube.length yt = inr length -> (0 <= length < 86400)%Z ->
  YouTube.views yt = inr views ->
  YouTube.author yt = inr author ->
  YouTube.thumbnail_url yt = inr thumbnail ->
  YouTube.video_id yt = inr video_id ->
  home w request tr
  = (inr (render "home.html"
            [ ("title"%string, VStr title);
              ("duration"%string, VStr (hms length));
              ("views"%string, VStr (thousands views));
              ("author"%string, VStr author);
              ("thumbnail"%string, VStr thumbnail);
              ("streams"%string, VStreams streams);
              ("video_id"%string, VStr video_id);
              ("clean_url"%string, VStr clean_url);
              ("success"%string, VBool true) ]), tr1)
  /\ is_canonical clean_url.
Proof.
  intros [Hm Hu] Hne Hs Hy Hall Hf Ht Hl Hlen Hv Ha Hth Hid.
  split; [|exact (sanitize_gives_canonical Hs)].
  assert (Hd : format_duration length = inr (hms length)).
  { unfold format_duration.
    rewrite timedelta_in_range by (unfold max_seconds; lia).
    unfold timedelta_str; rewrite Z.div_small, Z.mod_small by lia; reflexivity. }
  unfold home; rewrite (method_POST Hm), Hu, (falsy_nonempty Hne).
  unfold bind at 1, try_except.
  assert (E : home_try w url tr
              = (inr [ ("title"%string, VStr title);
                       ("duration"%string, VStr (hms length));
                       ("views"%string, VStr (thousands views));
                       ("author"%string, VStr author);
                       ("thumbnail"%string, VStr thumbnail);
                       ("streams"%string, VStreams streams);
                       ("video_id"%string, VStr video_id);
                       ("clean_url"%string, VStr clean_url);
                       ("success"%string, VBool true) ], tr1)).
  { unfold home_try.
    rewrite (bind_returns _ (lift_returns tr Hs)).
    rewrite (bind_returns _ Hy).
    rewrite (bind_returns _ (lift_returns tr1 Hall)).
    rewrite (bind_returns _ (lift_returns tr1 Hf)).
    rewrite (bind_returns _ (lift_returns tr1 Ht)).
    rewrite (bind_returns _ (lift_returns tr1 Hl)).
    rewrite (bind_returns _ (lift_returns tr1 Hd)).
    rewrite (bind_returns _ (lift_returns tr1 Hv)).
    rewrite (bind_returns _ (lift_returns tr1 Ha)).
    rewrite (bind_returns _ (lift_returns tr1 Hth)).
    rewrite (bind_returns _ (lift_returns tr1 Hid)).
    reflexivity. }
  rewrite E; reflexivity.
Qed.

Lemma home_shows_video_witness :
  home good_world (post [("url"%string, "youtu.be/abc12345678"%string)]) []
  = (inr (render "home.html"
            [ ("title"%string, VStr (py "My Video! @#$%"));
              ("duration"%string, VStr (hms 3661));
              ("views"%string, VStr (thousands 1234567));
              ("author"%string, VStr (py "Someone"));
              ("thumbnail"%string,
               VStr (py "https://i.ytimg.com/vi/abc12345678/default.jpg"));
              ("streams"%string, VStreams [stream_720p; stream_480p; stream_360p]);
              ("video_id"%string, VStr (py "abc12345678"));
              ("clean_url"%string,
               VStr (py "https://www.youtube.com/watch?v=abc12345678"));
              ("success"%string, VBool true) ]),
     [YouTube_init (py "https://www.youtube.com/watch?v=abc12345678");
      bypass_age_gate; vid_info])
  /\ is_canonical (py "https://www.youtube.com/watch?v=abc12345678").
Proof.
  apply (@home_shows_video good_world
           (post [("url"%string, "youtu.be/abc12345678"%string)])
           (py "youtu.be/abc12345678")
           (py "https://www.youtube.com/watch?v=abc12345678")
           []
           [YouTube_init (py "https://www.youtube.com/watch?v=abc12345678");
            bypass_age_gate; vid_info]
           good_handle [stream_360p; stream_480p; stream_720p]
           [stream_720p; stream_480p; stream_360p]
           (py "My Video! @#$%") (py "Someone")
           (py "https://i.ytimg.com/vi/abc12345678/default.jpg")
           (py "abc12345678") 3661%Z 1234567%Z).
  - split; reflexivity.
  - discriminate.
  - vm_compute; reflexivity.
  - vm_compute; reflexivity.
  - reflexivity.
  - reflexivity.
  - reflexivity.
  - reflexivity.
  - lia.
  - reflexivity.
  - reflexivity.
  - reflexivity.
  - reflexivity.
Defined.
